(** * wptrunner: the Marionette executors (executors/executormarionette.py)

    A shallow embedding of the Marionette protocol object, of the timed
    remote call [MarionetteRun] with its supervising and worker threads,
    and of the three executors built on them, followed by the properties
    of the specification settled against that embedding.

    Conventions.
    - Python exceptions are values of [Py.exn]; only subclasses of
      [Exception] are represented, which is what every [except] clause of
      the module catches.
    - A remote call of the Marionette client is an input of the model: its
      outcome ([Py.Ok] or [Py.Raise]) is a parameter of the function that
      performs it.
    - What a function does to the outside (logger, runner messages, remote
      calls) is recorded as a list of [event]s, oldest first. *)

From Stdlib Require Import ZArith List String Ascii Bool Lia.
From Stdlib Require Import DecimalString DecimalPos DecimalZ.
Import ListNotations.
Local Open Scope string_scope.
Local Open Scope list_scope.
Local Open Scope Z_scope.

(* ================================================================== *)
(** * Python values and exceptions *)
(* ================================================================== *)

Module Py.

(** The exception classes the module can meet, with the Python 2 class
    hierarchy ([socket.timeout] derives from [socket.error], which derives
    from [IOError]; the Marionette errors derive from
    [MarionetteException]). *)
Inductive exc_class : Set :=
| Exception
| StandardError
| EnvironmentError
| IOError
| SocketError
| SocketTimeout
| AttributeError
| TypeError
| IndexError
| KeyError
| ValueError
| AssertionError
| MarionetteException
| ScriptTimeoutException
| InvalidResponseException
| NoSuchWindowException
| ExecutorException.

Definition exc_class_eqb (c d : exc_class) : bool :=
  match c, d with
  | Exception, Exception | StandardError, StandardError
  | EnvironmentError, EnvironmentError | IOError, IOError
  | SocketError, SocketError | SocketTimeout, SocketTimeout
  | AttributeError, AttributeError | TypeError, TypeError
  | IndexError, IndexError | KeyError, KeyError | ValueError, ValueError
  | AssertionError, AssertionError
  | MarionetteException, MarionetteException
  | ScriptTimeoutException, ScriptTimeoutException
  | InvalidResponseException, InvalidResponseException
  | NoSuchWindowException, NoSuchWindowException
  | ExecutorException, ExecutorException => true
  | _, _ => false
  end.

(** The bases of a class, nearest first, the class itself included. *)
Definition mro (c : exc_class) : list exc_class :=
  match c with
  | Exception => [Exception]
  | StandardError => [StandardError; Exception]
  | EnvironmentError => [EnvironmentError; StandardError; Exception]
  | IOError => [IOError; EnvironmentError; StandardError; Exception]
  | SocketError =>
      [SocketError; IOError; EnvironmentError; StandardError; Exception]
  | SocketTimeout =>
      [SocketTimeout; SocketError; IOError; EnvironmentError;
       StandardError; Exception]
  | AttributeError => [AttributeError; StandardError; Exception]
  | TypeError => [TypeError; StandardError; Exception]
  | IndexError => [IndexError; StandardError; Exception]
  | KeyError => [KeyError; StandardError; Exception]
  | ValueError => [ValueError; StandardError; Exception]
  | AssertionError => [AssertionError; StandardError; Exception]
  | MarionetteException => [MarionetteException; Exception]
  | ScriptTimeoutException =>
      [ScriptTimeoutException; MarionetteException; Exception]
  | InvalidResponseException =>
      [InvalidResponseException; MarionetteException; Exception]
  | NoSuchWindowException =>
      [NoSuchWindowException; MarionetteException; Exception]
  | ExecutorException => [ExecutorException; Exception]
  end.

Definition issubclass (c d : exc_class) : bool :=
  existsb (exc_class_eqb d) (mro c).

(** The few Python values an exception's [message] attribute takes here. *)
Inductive value : Set :=
| VNone
| VInt (z : Z)
| VStr (s : string).

(** An exception object: its class and its [message] attribute, [None]
    when the object has no such attribute. *)
Record exn : Set := mk_exn { cls : exc_class; message : option value }.

Definition isinstance (e : exn) (c : exc_class) : bool :=
  issubclass (cls e) c.

(** Outcome of a Python expression or call. *)
Inductive res (A : Type) : Type :=
| Ok (a : A)
| Raise (e : exn).
Arguments Ok {A} a.
Arguments Raise {A} e.

Definition bind {A B : Type} (m : res A) (k : A -> res B) : res B :=
  match m with
  | Ok a => k a
  | Raise e => Raise e
  end.

(** Did the call return? *)
Definition succeeds {A : Type} (m : res A) : bool :=
  match m with
  | Ok _ => true
  | Raise _ => false
  end.

(** Truth value of an object, as [if message:] tests it. *)
Definition truthy (v : value) : bool :=
  match v with
  | VNone => false
  | VInt z => negb (z =? 0)
  | VStr s => negb (String.eqb s "")
  end.

(** [v += s] for a [str] [s]: concatenation on strings, [TypeError] on the
    other values. *)
Definition iadd_str (v : value) (s : string) : res value :=
  match v with
  | VStr t => Ok (VStr (t ++ s)%string)
  | _ => Raise (mk_exn TypeError
                  (Some (VStr "unsupported operand type(s) for +=")))
  end.

(** [getattr(e, "message", "")]. *)
Definition getattr_message (e : exn) : value :=
  match message e with
  | Some v => v
  | None => VStr ""
  end.

Definition newline : string := String (ascii_of_nat 10) EmptyString.

End Py.

Notation "x <- m ;; k" := (Py.bind m (fun x => k))
  (at level 61, m at next level, right associativity).

(** Extra timeout to use after the internal test timeout, at which the
    harness should force a timeout (seconds). *)
Definition extra_timeout : Z := 5.

Inductive level : Set := Debug | Info | Warning | Error | Critical.

(** What the code does to the outside, in the order it does it. Log
    messages are recorded by their format string. *)
Inductive event : Set :=
| Log (lvl : level) (text : string)
| SendMessage (msg : string)
| SetScriptTimeout (ms : Z)
| ThreadStart
| Wait (bound : option Z)
| WaitForPort (seconds : Z)
| StartSession
| Navigate
| ExecuteScript
| DriverStart.

(** Messages sent to the runner, out of a list of events. *)
Fixpoint sent (evs : list event) : list string :=
  match evs with
  | [] => []
  | SendMessage m :: evs' => m :: sent evs'
  | _ :: evs' => sent evs'
  end.

(** Log records of a list of events. *)
Fixpoint logged (evs : list event) : list (level * string) :=
  match evs with
  | [] => []
  | Log l t :: evs' => (l, t) :: logged evs'
  | _ :: evs' => logged evs'
  end.

(* ================================================================== *)
(** * MarionetteRun: one remote call under a deadline *)
(* ================================================================== *)

Module MarionetteRun.

(** What the name [marionette.errors.InvalidResponseException] is bound to.
    The clause [except IOError, marionette.errors.InvalidResponseException:]
    of [run] is Python 2's spelling of [except IOError as <target>]: it
    catches [IOError] alone and stores the caught object in the target, so
    the name stops denoting the class once that clause has run. *)
Inductive binding : Set :=
| TheClass
| Rebound (e : Py.exn).

(** Second component of a failure tuple. The code only ever stores [None]
    or the exception object; [DStr] is there for comparison. *)
Inductive detail : Set :=
| DNone
| DExc (e : Py.exn)
| DStr (s : string).

Section WithPayload.

(** What [func] returns. *)
Variable V : Type.

(** The values written to [self.result]: [(True, v)] is [Completed v] and
    [(False, (status, d))] is [Failed status d]. *)
Inductive outcome : Type :=
| Completed (v : V)
| Failed (status : string) (d : detail).

Definition success (o : outcome) : bool :=
  match o with
  | Completed _ => true
  | Failed _ _ => false
  end.

Definition timed_out : outcome := Failed "EXTERNAL-TIMEOUT" DNone.

(** What the remote call [func] does when the worker runs it. *)
Inductive behaviour : Type :=
| Returns (v : V)
| Raises (e : Py.exn)
| Hangs.

(** The outside of one call of [run]. *)
Record world : Type := mk_world {
  set_script_timeout : Py.res unit;
  func : behaviour;
  format_exc : Py.exn -> string
}.

(** What [run] hands back: the [Stop] sentinel of [testrunner] (an object
    that is not a tuple), or the content of [self.result]. *)
Inductive ret : Type :=
| RetStop
| RetResult (r : option outcome).

(** Program points of [run] (the supervising thread). *)
Inductive sup_pc : Type :=
| AtSetTimeout
| AtStart
| AtWait
| Waiting
| AtCheck (flag : bool)
| AtAssert (flag : bool)
| AtRecord
| AtReturn
| Returned (r : ret)
| Raised (e : Py.exn).

(** Program points of [_run] (the worker thread). *)
Inductive wrk_pc : Type :=
| NotStarted
| Calling
| Storing (o : outcome)
| Finally
| Finished.

Record state : Type := mk_state {
  result : option outcome;
  result_flag : bool;
  errors_InvalidResponseException : binding;
  sup : sup_pc;
  wrk : wrk_pc;
  sup_events : list event;
  wrk_events : list event
}.

Definition init (g : binding) : state :=
  mk_state None false g AtSetTimeout NotStarted [] [].

Definition goto (pc : sup_pc) (s : state) : state :=
  mk_state (result s) (result_flag s) (errors_InvalidResponseException s)
           pc (wrk s) (sup_events s) (wrk_events s).

Definition wgoto (pc : wrk_pc) (s : state) : state :=
  mk_state (result s) (result_flag s) (errors_InvalidResponseException s)
           (sup s) pc (sup_events s) (wrk_events s).

Definition emit (ev : event) (s : state) : state :=
  mk_state (result s) (result_flag s) (errors_InvalidResponseException s)
           (sup s) (wrk s) (sup_events s ++ [ev]) (wrk_events s).

Definition wemit (evs : list event) (s : state) : state :=
  mk_state (result s) (result_flag s) (errors_InvalidResponseException s)
           (sup s) (wrk s) (sup_events s) (wrk_events s ++ evs).

(** [self.result = o], by either thread: an unconditional store. *)
Definition store (o : outcome) (s : state) : state :=
  mk_state (Some o) (result_flag s) (errors_InvalidResponseException s)
           (sup s) (wrk s) (sup_events s) (wrk_events s).

(** [self.result_flag.set()]. *)
Definition set_flag (s : state) : state :=
  mk_state (result s) true (errors_InvalidResponseException s)
           (sup s) (wrk s) (sup_events s) (wrk_events s).

Definition rebind (e : Py.exn) (s : state) : state :=
  mk_state (result s) (result_flag s) (Rebound e)
           (sup s) (wrk s) (sup_events s) (wrk_events s).

Definition script_timeout (timeout : option Z) : Z :=
  match timeout with
  | Some t => (t + extra_timeout) * 1000
  | None => 2 ^ 31 - 1
  end.

Definition wait_timeout (timeout : option Z) : option Z :=
  match timeout with
  | Some t => Some (t + 2 * extra_timeout)
  | None => None
  end.

(** One step of [run]; [None] when the supervisor cannot move (it has
    finished, or it is blocked in [wait] with the flag unset). *)
Definition run_step (w : world) (timeout : option Z) (s : state)
  : option state :=
  match sup s with
  | AtSetTimeout =>
      let s1 := emit (SetScriptTimeout (script_timeout timeout)) s in
      match set_script_timeout w with
      | Py.Ok _ => Some (goto AtStart s1)
      | Py.Raise e =>
          if Py.isinstance e Py.IOError
          then Some (goto (Returned RetStop)
                       (emit (Log Error
                                "Lost marionette connection before starting test")
                          (rebind e s1)))
          else Some (goto (Raised e) s1)
      end
  | AtStart => Some (goto AtWait (wgoto Calling (emit ThreadStart s)))
  | AtWait => Some (goto Waiting (emit (Wait (wait_timeout timeout)) s))
  | Waiting =>
      if result_flag s then Some (goto (AtCheck true) s) else None
  | AtCheck flag =>
      match result s with
      | None =>
          Some (goto (AtAssert flag)
                  (emit (Log Debug "Timed out waiting for a result") s))
      | Some _ => Some (goto AtReturn s)
      end
  | AtAssert flag =>
      if flag
      then Some (goto (Raised (Py.mk_exn Py.AssertionError None)) s)
      else Some (goto AtRecord s)
  | AtRecord => Some (goto AtReturn (store timed_out s))
  | AtReturn => Some (goto (Returned (RetResult (result s))) s)
  | Returned _ => None
  | Raised _ => None
  end.

(** The bound of [wait] elapses: [wait] returns the flag as it then is.
    Only a finite bound can elapse. *)
Definition wait_elapses (timeout : option Z) (s : state) : option state :=
  match sup s, wait_timeout timeout with
  | Waiting, Some _ => Some (goto (AtCheck (result_flag s)) s)
  | _, _ => None
  end.

(** Does [e] match [(socket.timeout,
    marionette.errors.InvalidResponseException, IOError)]? An entry that is
    not a class matches nothing. *)
Definition matches_crash (g : binding) (e : Py.exn) : bool :=
  Py.isinstance e Py.SocketTimeout
  || match g with
     | TheClass => Py.isinstance e Py.InvalidResponseException
     | Rebound _ => false
     end
  || Py.isinstance e Py.IOError.

(** The [except] clauses of [_run], on the exception [e] raised by
    [func]: the log records, and the tuple to store or the exception the
    handler itself raises. *)
Definition _run_except (g : binding) (fmt : Py.exn -> string) (e : Py.exn)
  : list event * Py.res outcome :=
  if Py.isinstance e Py.ScriptTimeoutException then
    ([Log Debug "Got a marionette timeout"],
     Py.Ok (Failed "EXTERNAL-TIMEOUT" DNone))
  else if matches_crash g e then
    ([], Py.Ok (Failed "CRASH" DNone))
  else
    ([],
     message <- (let message := Py.getattr_message e in
                 if Py.truthy message
                 then Py.iadd_str message Py.newline
                 else Py.Ok message) ;;
     message <- Py.iadd_str message (fmt e) ;;
     Py.Ok (Failed "ERROR" (DExc e))).

(** One step of [_run]; [None] when the worker cannot move (not started,
    finished, or inside a [func] that never returns). *)
Definition _run_step (w : world) (s : state) : option state :=
  match wrk s with
  | NotStarted => None
  | Calling =>
      match func w with
      | Returns v => Some (wgoto (Storing (Completed v)) s)
      | Raises e =>
          let '(log, r) :=
            _run_except (errors_InvalidResponseException s) (format_exc w) e in
          match r with
          | Py.Ok o => Some (wgoto (Storing o) (wemit log s))
          | Py.Raise _ => Some (wgoto Finally (wemit log s))
          end
      | Hangs => None
      end
  | Storing o => Some (wgoto Finally (store o s))
  | Finally => Some (wgoto Finished (set_flag s))
  | Finished => None
  end.

(** A schedule says which thread moves next, and when the bound of the
    supervisor's [wait] runs out. *)
Inductive action : Set := Sup | Elapse | Wrk.

Definition step (w : world) (timeout : option Z) (a : action) (s : state)
  : state :=
  let next :=
    match a with
    | Sup => run_step w timeout s
    | Elapse => wait_elapses timeout s
    | Wrk => _run_step w s
    end in
  match next with
  | Some s' => s'
  | None => s
  end.

Fixpoint exec (w : world) (timeout : option Z) (sch : list action)
  (s : state) : state :=
  match sch with
  | [] => s
  | a :: sch' => exec w timeout sch' (step w timeout a s)
  end.

(** [run], under a schedule: what the call gives its caller, [None] while
    it has not finished. *)
Definition run (w : world) (timeout : option Z) (g : binding)
  (sch : list action) : option (Py.res ret) :=
  match sup (exec w timeout sch (init g)) with
  | Returned r => Some (Py.Ok r)
  | Raised e => Some (Py.Raise e)
  | _ => None
  end.

(** What the worker stores when nothing stops it: [None] when [func] hangs
    or when the handler of [_run] itself raises. *)
Definition worker_outcome (g : binding) (w : world) : option outcome :=
  match func w with
  | Returns v => Some (Completed v)
  | Raises e =>
      match snd (_run_except g (format_exc w) e) with
      | Py.Ok o => Some o
      | Py.Raise _ => None
      end
  | Hangs => None
  end.

(** Has the worker stored its tuple in [self.result]? It has once it is
    past its store, unless its handler raised and it had nothing to store. *)
Definition recorded (g : binding) (w : world) (s : state) : bool :=
  match wrk s, worker_outcome g w with
  | Finally, Some _ => true
  | Finished, Some _ => true
  | _, _ => false
  end.

(** Has [run] come to its end? *)
Definition finished (s : state) : bool :=
  match sup s with
  | Returned _ => true
  | Raised _ => true
  | _ => false
  end.

Definition assertion_error : Py.exn := Py.mk_exn Py.AssertionError None.

(** [l] is an initial segment of [l']. *)
Definition prefix (l l' : list event) : Prop := exists rest, l' = l ++ rest.

(** The events of a call of [run] that goes all the way. *)
Definition run_events (timeout : option Z) : list event :=
  [SetScriptTimeout (script_timeout timeout); ThreadStart;
   Wait (wait_timeout timeout)].

Definition timed_out_log : event :=
  Log Debug "Timed out waiting for a result".

(** What holds of every state a call of [run] started with the binding
    [g] goes through. *)
Definition inv (w : world) (g : binding) (s : state) : Prop :=
  let O := worker_outcome g w in
  result_flag s = match wrk s with Finished => true | _ => false end
  /\ (forall o, wrk s = Storing o -> O = Some o)
  /\ (errors_InvalidResponseException s = g
      \/ wrk s = NotStarted /\ sup s = Returned RetStop)
  /\ (sup s = AtSetTimeout -> wrk s = NotStarted)
  /\ (sup s = AtStart -> wrk s = NotStarted)
  /\ (wrk s = NotStarted ->
      match sup s with
      | AtSetTimeout | AtStart | Returned RetStop | Raised _ => True
      | _ => False
      end)
  /\ (func w = Hangs -> wrk s = NotStarted \/ wrk s = Calling)
  /\ (result s = None \/ result s = Some timed_out
      \/ recorded g w s = true /\ result s = O)
  /\ (recorded g w s = false ->
      (result s = None \/ result s = Some timed_out)
      /\ (sup s = AtReturn -> result s = Some timed_out)
      /\ (forall x, sup s = Returned (RetResult x) -> x = Some timed_out))
  /\ (sup s = AtReturn -> result s <> None)
  /\ (forall x, sup s = Returned (RetResult x) ->
      x = Some timed_out \/ x = O /\ x <> None)
  /\ (sup s = AtCheck true -> result_flag s = true)
  /\ (sup s = AtAssert true -> result_flag s = true)
  /\ (forall e, sup s = Raised e ->
      set_script_timeout w = Py.Raise e
      \/ e = assertion_error /\ result_flag s = true).

(** What holds in addition when the deadline is [None]. *)
Definition inv_unbounded (w : world) (g : binding) (s : state) : Prop :=
  result s = (if recorded g w s then worker_outcome g w else None)
  /\ match sup s with
     | AtCheck f => f = true /\ result_flag s = true
     | AtAssert f =>
         f = true /\ result_flag s = true /\ worker_outcome g w = None
     | AtRecord => False
     | AtReturn => result_flag s = true
     | Returned (RetResult x) =>
         x = worker_outcome g w /\ x <> None /\ result_flag s = true
     | Raised e =>
         set_script_timeout w = Py.Raise e
         \/ worker_outcome g w = None /\ result_flag s = true
     | _ => True
     end.

(** The events of the supervisor, by program point, when
    [set_script_timeout] succeeds. *)
Definition inv_events (timeout : option Z) (s : state) : Prop :=
  match sup s with
  | AtSetTimeout => sup_events s = []
  | AtStart => sup_events s = [SetScriptTimeout (script_timeout timeout)]
  | AtWait =>
      sup_events s = [SetScriptTimeout (script_timeout timeout); ThreadStart]
  | Waiting => sup_events s = run_events timeout
  | AtCheck _ => sup_events s = run_events timeout
  | AtAssert _ => sup_events s = run_events timeout ++ [timed_out_log]
  | AtRecord => sup_events s = run_events timeout ++ [timed_out_log]
  | Returned RetStop => False
  | _ =>
      sup_events s = run_events timeout
      \/ sup_events s = run_events timeout ++ [timed_out_log]
  end.

(** A schedule tail on which the bound of [wait] runs out and the
    supervisor then runs on its own. *)
Definition bound_elapses : list action :=
  [Sup; Sup; Sup; Elapse; Sup; Sup; Sup; Sup].

(** A schedule tail on which the worker runs to its end and the supervisor
    then runs on its own. *)
Definition worker_completes : list action :=
  [Sup; Sup; Sup; Wrk; Wrk; Wrk; Sup; Sup; Sup].

(** How many steps of its own the supervisor has left at most. *)
Definition sup_rank (s : state) : nat :=
  match sup s with
  | AtSetTimeout => 8
  | AtStart => 7
  | AtWait => 6
  | Waiting => 5
  | AtCheck _ => 4
  | AtAssert _ => 3
  | AtRecord => 2
  | AtReturn => 1
  | Returned _ => 0
  | Raised _ => 0
  end.

(** What holds of the slot once the worker has stored its tuple, and of a
    failed [assert not flag]. *)
Definition inv_assert (w : world) (g : binding) (s : state) : Prop :=
  (recorded g w s = true -> result s <> None)
  /\ (sup s = AtAssert true -> worker_outcome g w = None)
  /\ (forall e, sup s = Raised e ->
      set_script_timeout w = Py.Raise e
      \/ e = assertion_error /\ worker_outcome g w = None)
  /\ (forall e, sup s = Raised e -> Py.isinstance e Py.IOError = false).



End WithPayload.

Arguments Completed {V} v.
Arguments Failed {V} status d.
Arguments timed_out {V}.
Arguments Returns {V} v.
Arguments Raises {V} e.
Arguments Hangs {V}.
Arguments RetStop {V}.
Arguments RetResult {V} r.
Arguments AtSetTimeout {V}.
Arguments AtStart {V}.
Arguments AtWait {V}.
Arguments Waiting {V}.
Arguments AtCheck {V} flag.
Arguments AtAssert {V} flag.
Arguments AtRecord {V}.
Arguments AtReturn {V}.
Arguments Returned {V} r.
Arguments Raised {V} e.
Arguments NotStarted {V}.
Arguments Calling {V}.
Arguments Storing {V} o.
Arguments Finally {V}.
Arguments Finished {V}.

End MarionetteRun.

(* ================================================================== *)
(** * MarionetteTestharnessExecutor *)
(* ================================================================== *)

Module MarionetteTestharnessExecutor.

Import MarionetteRun.

Record test : Set := mk_test { url : string; timeout : Z }.

Record executor : Set := mk_executor {
  timeout_multiplier : Z;
  debug_args : option (list string);
  close_after_done : bool
}.

(** [test.result_cls(status, message)]. *)
Record harness_result : Set := mk_result { status : string; message : detail }.

Section DoTest.

(** Payload of the remote script, type of a subtest result, and the
    result converter (an external collaborator). *)
Variables V Sub : Type.
Variable convert_result : test -> V -> Py.res (harness_result * list Sub).

Definition do_test_timeout (x : executor) (t : test) : option Z :=
  match debug_args x with
  | None => Some (timeout t * timeout_multiplier x)
  | Some _ => None
  end.

(** The part of [do_test] after [run] has handed back [r]. Unpacking
    [success, data = r] needs a pair: [Stop] and [None] are not iterable. *)
Definition do_test_unpack (t : test) (r : ret V)
  : Py.res (harness_result * list Sub) :=
  match r with
  | RetStop =>
      Py.Raise (Py.mk_exn Py.TypeError
                  (Some (Py.VStr "'object' object is not iterable")))
  | RetResult None =>
      Py.Raise (Py.mk_exn Py.TypeError
                  (Some (Py.VStr "'NoneType' object is not iterable")))
  | RetResult (Some (Completed data)) => convert_result t data
  | RetResult (Some (Failed st d)) => Py.Ok (mk_result st d, [])
  end.

(** [do_test], under a schedule of the two threads of [run]; [None] while
    [run] has not finished. *)
Definition do_test (w : world V) (g : binding) (sch : list action)
  (x : executor) (t : test)
  : option (Py.res (harness_result * list Sub)) :=
  match run V w (do_test_timeout x t) g sch with
  | None => None
  | Some (Py.Raise e) => Some (Py.Raise e)
  | Some (Py.Ok r) => Some (do_test_unpack t r)
  end.

End DoTest.

(** [str(n)] for an integer [n]. *)
Definition str (n : Z) : string := NilZero.string_of_int (Z.to_int n).

(** The remote calls of [do_testharness], in the order it makes them. *)
Inductive call : Set :=
| CloseWindowScript
| AsyncScript (script : string).

(** The mapping substituted into the script template, key by key:
    [abs_url], [url], [window_id], [timeout_multiplier], [timeout],
    [explicit_timeout]. *)
Record substitution : Set := mk_substitution {
  s_abs_url : string;
  s_url : string;
  s_window_id : string;
  s_timeout_multiplier : Z;
  s_timeout : string;
  s_explicit_timeout : bool
}.

Definition timeout_ms (timeout : option Z) : string :=
  match timeout with
  | Some t => str (t * 1000)
  | None => "null"
  end.

Section DoTestharness.

Variable V : Type.

(** What the executor holds besides its flags, [urlparse.urljoin], and the
    instantiation [self.script % {...}] of the template
    (testharness_marionette.js is not part of the sources at hand). *)
Variable http_server_url : string.
Variable window_id : string.
Variable urljoin : string -> string -> string.
Variable render : substitution -> Py.res string.

(** Outcomes of the two remote calls. *)
Record script_remote : Type := mk_script_remote {
  close_window_script : behaviour unit;
  execute_async_script : string -> behaviour V
}.

Definition substitution_of (x : executor) (test_url : string)
  (timeout : option Z) : substitution :=
  mk_substitution (urljoin http_server_url test_url) test_url window_id
    (timeout_multiplier x) (timeout_ms timeout)
    (match timeout with None => true | Some _ => false end).

(** [do_testharness]: the remote calls made, and what the call does. *)
Definition do_testharness (x : executor) (r : script_remote)
  (test_url : string) (timeout : option Z) : list call * behaviour V :=
  let rest :=
    match render (substitution_of x test_url timeout) with
    | Py.Ok script => ([AsyncScript script], execute_async_script r script)
    | Py.Raise e => ([], Raises e)
    end in
  if close_after_done x then
    match close_window_script r with
    | Returns _ => (CloseWindowScript :: fst rest, snd rest)
    | Raises e => ([CloseWindowScript], Raises e)
    | Hangs => ([CloseWindowScript], Hangs)
    end
  else rest.

(** The outside of the call of [run] that [do_test] makes: its [func] is
    [do_testharness] on the test's url and the deadline of [do_test]. *)
Definition do_test_world (set_timeout : Py.res unit) (r : script_remote)
  (fmt : Py.exn -> string) (x : executor) (t : test) : world V :=
  mk_world V set_timeout
    (snd (do_testharness x r (url t) (do_test_timeout x t))) fmt.

End DoTestharness.

End MarionetteTestharnessExecutor.

(* ================================================================== *)
(** * MarionetteProtocol: the session life cycle *)
(* ================================================================== *)

Module MarionetteProtocol.

(** What [self.marionette] refers to: [None], as [__init__] leaves it, or
    a client object. *)
Inductive handle : Set := PyNone | Client.

(** The protocol object. [marionette] is [None] when the instance has no
    such attribute (after [del self.marionette]). *)
Record protocol : Set := mk_protocol { marionette : option handle }.

(** [__init__]. *)
Definition new : protocol := mk_protocol (Some PyNone).

(** Outcomes of the remote calls made while setting up. [wait_for_port n]
    is the outcome of the poll number [n]. *)
Record remote : Type := mk_remote {
  wait_for_port : nat -> bool;
  start_session : Py.res unit;
  navigate : Py.res unit;
  execute_script : Py.res unit
}.

Definition attribute_error : Py.exn :=
  Py.mk_exn Py.AttributeError (Some (Py.VStr "no such attribute")).

(** [self.marionette]. *)
Definition getattr_marionette (p : protocol) : Py.res handle :=
  match marionette p with
  | Some h => Py.Ok h
  | None => Py.Raise attribute_error
  end.

(** [h.name] or [h.name(...)] for a member [name] of the client, whose
    outcome on a client is [outcome]. *)
Definition member {A : Type} (h : handle) (outcome : Py.res A) : Py.res A :=
  match h with
  | PyNone => Py.Raise attribute_error
  | Client => outcome
  end.

(** [del self.marionette]. *)
Definition delattr_marionette (p : protocol) : Py.res protocol :=
  match marionette p with
  | Some _ => Py.Ok (mk_protocol None)
  | None => Py.Raise attribute_error
  end.

Definition after_connect (r : remote) (p : protocol)
  : list event * Py.res unit :=
  let nav := (h <- getattr_marionette p ;; member h (navigate r)) in
  let handler :=
    match nav with
    | Py.Ok _ => []
    | Py.Raise _ => [Log Critical "Loading initial page %s failed."]
    end in
  ([Log Debug "Loading %s"; Navigate] ++ handler ++ [ExecuteScript],
   h <- getattr_marionette p ;; member h (execute_script r)).

(** The loop [while True: success = wait_for_port(60) ...], from the poll
    number [n] on: the polls made, and [success] when the loop is left
    within [fuel] polls. *)
Fixpoint wait_loop (fuel : nat) (port : nat -> bool)
  (debug_args : option (list string)) (n : nat)
  : list event * option bool :=
  match fuel with
  | O => ([], None)
  | S fuel' =>
      let success := port n in
      if success || match debug_args with None => true | Some _ => false end
      then ([WaitForPort 60], Some success)
      else
        let '(evs, r) := wait_loop fuel' port debug_args (S n) in
        (WaitForPort 60 :: evs, r)
  end.

(** [setup]. [Protocol_setup] is what the base class's [setup] does
    (executors/base.py is not part of the sources at hand). The result
    holds the object, the events so far, and whether [setup] has returned
    within [fuel] polls of the port. *)
Definition setup (Protocol_setup : list event) (fuel : nat)
  (debug_args : option (list string)) (r : remote) (p : protocol)
  : protocol * list event * bool :=
  let p1 := mk_protocol (Some Client) in
  let ev0 := Protocol_setup
             ++ [Log Debug "Connecting to marionette on port %i";
                 Log Debug "Waiting for Marionette connection"] in
  match wait_loop fuel (wait_for_port r) debug_args 0 with
  | (evp, None) => (p1, ev0 ++ evp, false)
  | (evp, Some success) =>
      let '(evs, session_started) :=
        if success then
          match start_session r with
          | Py.Ok _ =>
              ([Log Debug "Starting Marionette session"; StartSession;
                Log Debug "Marionette session started"], true)
          | Py.Raise _ =>
              ([Log Debug "Starting Marionette session"; StartSession;
                Log Warning "Starting marionette session failed: %s"], false)
          end
        else ([], false) in
      let evf :=
        if negb success || negb session_started then
          [Log Warning "Failed to connect to Marionette";
           SendMessage "init_failed"]
        else
          match after_connect r p1 with
          | (eva, Py.Raise _) =>
              eva ++ [Log Warning "Post-connection steps failed";
                      Log Error "%s";
                      SendMessage "init_failed"]
          | (eva, Py.Ok _) => eva ++ [SendMessage "init_succeeded"]
          end in
      (p1, ev0 ++ evp ++ evs ++ evf, true)
  end.

(** [teardown]; [delete_session] is the outcome of the remote call. *)
Definition teardown (delete_session : Py.res unit) (p : protocol)
  : Py.res protocol :=
  match (h <- getattr_marionette p ;; member h delete_session) with
  | Py.Ok _ => delattr_marionette p
  | Py.Raise _ =>
      (* except Exception: pass *)
      delattr_marionette p
  end.

(** [is_alive]; [current_window_handle] is the outcome of fetching the
    property over the connection. *)
Definition is_alive (current_window_handle : Py.res string) (p : protocol)
  : bool :=
  match (h <- getattr_marionette p ;; member h current_window_handle) with
  | Py.Ok _ => true
  | Py.Raise _ => false
  end.

End MarionetteProtocol.

(* ================================================================== *)
(** * MarionetteWebDriverExecutor *)
(* ================================================================== *)

Module MarionetteWebDriverExecutor.

(** [setup]. [WebDriverTestExecutor_setup] is what the base class's
    [setup] does (executors/executorwebdriver.py is not part of the
    sources at hand); [start] is the outcome of [self.driver.start()]. *)
Definition setup (WebDriverTestExecutor_setup : list event)
  (start : Py.res unit) : list event :=
  WebDriverTestExecutor_setup
  ++ [DriverStart]
  ++ match start with
     | Py.Raise _ => [Log Error "%s"; SendMessage "init_failed"]
     | Py.Ok _ => [Log Info "Webdriver started"; SendMessage "init_succeeded"]
     end.

(** What [teardown] does, in order. *)
Inductive teardown_step : Set :=
| LogTeardown
| DriverStop
| BaseTeardown.

(** [self.driver]: [None], as [__init__] leaves it, or the local server
    object that [setup] creates before it tries to start it. *)
Definition driver_after_init : option unit := None.
Definition driver_after_setup : option unit := Some tt.

(** [teardown]; [stop] is the outcome of [self.driver.stop()] and [base]
    that of the base class's [teardown]. *)
Definition teardown (driver : option unit) (stop base : Py.res unit)
  : list teardown_step * Py.res unit :=
  match driver with
  | Some _ =>
      match stop with
      | Py.Ok _ => ([LogTeardown; DriverStop; BaseTeardown], base)
      | Py.Raise e => ([LogTeardown; DriverStop], Py.Raise e)
      end
  | None => ([LogTeardown; BaseTeardown], base)
  end.

(** [is_alive]; [probe] is the outcome of [self.driver.is_alive()]. *)
Definition is_alive (driver : option unit) (probe : Py.res bool)
  : Py.res bool :=
  match driver with
  | Some _ => probe
  | None =>
      Py.Raise (Py.mk_exn Py.AttributeError
                  (Some (Py.VStr
                           "'NoneType' object has no attribute 'is_alive'")))
  end.

End MarionetteWebDriverExecutor.

(* ================================================================== *)
(** * MarionetteRefTestExecutor: the window kept between tests *)
(* ================================================================== *)

Module Browser.

(** Modelled from the spec: the window operations of the remote session
    (the Marionette client and reftest.js are not part of the sources at
    hand). [window_handles] is ordered by opening; [close] closes the
    current window and leaves no current context; [switch_to_window]
    makes an open window the current context; the reference-test driver
    script opens one new window, which becomes the most recently opened
    one. A command that needs a current context fails without one. *)
Record browser : Set := mk_browser {
  window_handles : list nat;
  current : option nat;
  fresh : nat
}.

Definition no_such_window : Py.exn :=
  Py.mk_exn Py.NoSuchWindowException None.

Definition is_open (h : nat) (b : browser) : bool :=
  existsb (Nat.eqb h) (window_handles b).

Definition close (b : browser) : Py.res browser :=
  match current b with
  | Some h =>
      if is_open h b
      then Py.Ok (mk_browser
                    (filter (fun k => negb (Nat.eqb k h)) (window_handles b))
                    None (fresh b))
      else Py.Raise no_such_window
  | None => Py.Raise no_such_window
  end.

Definition switch_to_window (h : nat) (b : browser) : Py.res browser :=
  if is_open h b
  then Py.Ok (mk_browser (window_handles b) (Some h) (fresh b))
  else Py.Raise no_such_window.

(** [window_handles[-1]]. *)
Definition last_window_handle (b : browser) : Py.res nat :=
  match rev (window_handles b) with
  | h :: _ => Py.Ok h
  | [] => Py.Raise (Py.mk_exn Py.IndexError
                      (Some (Py.VStr "list index out of range")))
  end.

(** [execute_script(self.script)] with the reference-test driver script. *)
Definition execute_reftest_script (b : browser) : Py.res browser :=
  match current b with
  | Some h =>
      if is_open h b
      then Py.Ok (mk_browser (window_handles b ++ [fresh b]) (current b)
                    (S (fresh b)))
      else Py.Raise no_such_window
  | None => Py.Raise no_such_window
  end.

End Browser.

Module MarionetteRefTestExecutor.

Import Browser.

Record executor : Set := mk_executor {
  close_after_done : bool;
  has_window : bool
}.

(** The executor together with the browser it drives. A call that raises
    keeps what it had changed until then. *)
Definition state : Set := (executor * browser)%type.

(** First block of [do_test]: [if self.close_after_done and
    self.has_window: ...]. *)
Definition close_previous (s : state) : state * Py.res unit :=
  let '(x, b) := s in
  if close_after_done x && has_window x then
    match close b with
    | Py.Raise e => (s, Py.Raise e)
    | Py.Ok b1 =>
        match last_window_handle b1 with
        | Py.Raise e => ((x, b1), Py.Raise e)
        | Py.Ok h =>
            match switch_to_window h b1 with
            | Py.Raise e => ((x, b1), Py.Raise e)
            | Py.Ok b2 =>
                ((mk_executor (close_after_done x) false, b2), Py.Ok tt)
            end
        end
    end
  else (s, Py.Ok tt).

(** Second block of [do_test]: [if not self.has_window: ...]. *)
Definition open_window (s : state) : state * Py.res unit :=
  let '(x, b) := s in
  if negb (has_window x) then
    match execute_reftest_script b with
    | Py.Raise e => (s, Py.Raise e)
    | Py.Ok b1 =>
        match last_window_handle b1 with
        | Py.Raise e => ((x, b1), Py.Raise e)
        | Py.Ok h =>
            match switch_to_window h b1 with
            | Py.Raise e => ((x, b1), Py.Raise e)
            | Py.Ok b2 =>
                ((mk_executor (close_after_done x) true, b2), Py.Ok tt)
            end
        end
    end
  else (s, Py.Ok tt).

Section DoTest.

(** What [self.convert_result(test, self.implementation.run_test(test))]
    gives; the comparison logic is an external collaborator that works in
    the window [do_test] has prepared. *)
Variable R : Type.

Definition do_test (run_test : Py.res R) (s : state) : state * Py.res R :=
  match close_previous s with
  | (s1, Py.Raise e) => (s1, Py.Raise e)
  | (s1, Py.Ok _) =>
      match open_window s1 with
      | (s2, Py.Raise e) => (s2, Py.Raise e)
      | (s2, Py.Ok _) => (s2, run_test)
      end
  end.

(** The states a call of [do_test] goes through: after the first block
    and after the second. *)
Definition do_test_states (s : state) : list state :=
  let s1 := fst (close_previous s) in
  match snd (close_previous s) with
  | Py.Raise _ => [s1]
  | Py.Ok _ => [s1; fst (open_window s1)]
  end.

(** A sequence of calls, one per outcome of [run_test]: the final state
    and what each call gave, in order. The harness goes on to the next
    test when a call raises. *)
Fixpoint do_tests (outcomes : list (Py.res R)) (s : state)
  : state * list (Py.res R) :=
  match outcomes with
  | [] => (s, [])
  | o :: rest =>
      let '(s1, r) := do_test o s in
      let '(s2, rs) := do_tests rest s1 in
      (s2, r :: rs)
  end.

(** Every state the sequence goes through, the first one included. *)
Fixpoint visited (outcomes : list (Py.res R)) (s : state) : list state :=
  match outcomes with
  | [] => [s]
  | o :: rest => s :: do_test_states s ++ visited rest (fst (do_test o s))
  end.

End DoTest.

(** The windows open now that were not open when the executor started:
    the ones its driver script has opened. *)
Definition tracked (ws0 : list nat) (b : browser) : list nat :=
  filter (fun h => negb (existsb (Nat.eqb h) ws0)) (window_handles b).

(** The remote calls of [_screenshot], in the order it makes them. *)
Inductive shot_call : Set :=
| NavigateTo (full_url : string)
| WaitScript
| Screenshot.

Definition data_prefix : string := "data:image/png;base64,".

(** [s.split(sep, 1)]: the text before the first [sep] and the text after
    it, or [s] alone when [sep] does not occur. *)
Fixpoint split_once (sep : ascii) (s : string) : list string :=
  match s with
  | EmptyString => [EmptyString]
  | String c rest =>
      if Ascii.eqb c sep then [EmptyString; rest]
      else match split_once sep rest with
           | head :: tail => String c head :: tail
           | [] => []
           end
  end.

(** The last three lines of [_screenshot]: strip off the
    [data:image/png;base64,] part of the url. *)
Definition strip_data_prefix (screenshot : string) : Py.res string :=
  if String.prefix data_prefix screenshot then
    match nth_error (split_once "," screenshot) 1 with
    | Some part => Py.Ok part
    | None => Py.Raise (Py.mk_exn Py.IndexError
                          (Some (Py.VStr "list index out of range")))
    end
  else Py.Ok screenshot.

Section Screenshot.

(** What the executor holds, [urlparse.urljoin], the outcome of
    evaluating [marionette.errors.MarionetteException] on the client that
    [_screenshot] receives as its argument [marionette], and the
    [ExecutorException("ERROR", "Failed to load url ...")] object
    ([ExecutorException] is defined in executors/base.py, which is not
    part of the sources at hand). *)
Variable http_server_url : string.
Variable urljoin : string -> string -> string.
Variable errors_MarionetteException : Py.res Py.exc_class.
Variable load_failure : string -> Py.exn.

(** Outcomes of the three remote calls. *)
Record shot_remote : Type := mk_shot_remote {
  navigate : MarionetteRun.behaviour unit;
  execute_wait_script : MarionetteRun.behaviour unit;
  take_screenshot : MarionetteRun.behaviour string
}.

(** [_screenshot]: the remote calls made, and what the call does. *)
Definition _screenshot (r : shot_remote) (test_url : string)
  : list shot_call * MarionetteRun.behaviour string :=
  let full_url := urljoin http_server_url test_url in
  match navigate r with
  | MarionetteRun.Hangs => ([NavigateTo full_url], MarionetteRun.Hangs)
  | MarionetteRun.Raises e =>
      ([NavigateTo full_url],
       match errors_MarionetteException with
       | Py.Raise e' => MarionetteRun.Raises e'
       | Py.Ok c =>
           if Py.isinstance e c
           then MarionetteRun.Raises (load_failure full_url)
           else MarionetteRun.Raises e
       end)
  | MarionetteRun.Returns _ =>
      match execute_wait_script r with
      | MarionetteRun.Hangs =>
          ([NavigateTo full_url; WaitScript], MarionetteRun.Hangs)
      | MarionetteRun.Raises e =>
          ([NavigateTo full_url; WaitScript], MarionetteRun.Raises e)
      | MarionetteRun.Returns _ =>
          ([NavigateTo full_url; WaitScript; Screenshot],
           match take_screenshot r with
           | MarionetteRun.Hangs => MarionetteRun.Hangs
           | MarionetteRun.Raises e => MarionetteRun.Raises e
           | MarionetteRun.Returns shot =>
               match strip_data_prefix shot with
               | Py.Ok png => MarionetteRun.Returns png
               | Py.Raise e => MarionetteRun.Raises e
               end
           end)
      end
  end.

(** [screenshot]: the deadline it gives [run], and the outside of that
    call of [run], whose [func] is [_screenshot]. *)
Definition screenshot_timeout (debug_args : option (list string))
  (timeout : Z) : option Z :=
  match debug_args with
  | None => Some timeout
  | Some _ => None
  end.

Definition screenshot_world (set_timeout : Py.res unit) (r : shot_remote)
  (fmt : Py.exn -> string) (test_url : string)
  : MarionetteRun.world string :=
  MarionetteRun.mk_world string set_timeout (snd (_screenshot r test_url))
    fmt.

End Screenshot.

(** What holds between calls and between the two blocks of [do_test],
    for an executor started on the windows [ws0]: the handles in use are
    below the next fresh one, and either a window is tracked, is the last
    one opened and is the current context, or the windows are the initial
    ones and the current context is one of them. *)
Definition window_inv (ws0 : list nat) (s : state) : Prop :=
  Forall (fun h => (h < fresh (snd s))%nat) (window_handles (snd s))
  /\ if has_window (fst s)
     then exists w,
         window_handles (snd s) = ws0 ++ [w]
         /\ current (snd s) = Some w /\ ~ In w ws0
     else window_handles (snd s) = ws0
          /\ exists h, current (snd s) = Some h /\ In h ws0.

End MarionetteRefTestExecutor.

(* ================================================================== *)
(** * Concrete scenarios *)
(* ================================================================== *)

Module Scenarios.

Import MarionetteRun.

Definition traceback (e : Py.exn) : string :=
  "Traceback (most recent call last): ...".

(** A connection on which [set_script_timeout] succeeds, and a remote
    call that behaves as [b]. *)
Definition healthy (b : behaviour nat) : world nat :=
  mk_world nat (Py.Ok tt) b traceback.

(** A connection on which [set_script_timeout] raises [e]. *)
Definition dead (e : Py.exn) : world nat :=
  mk_world nat (Py.Raise e) (Returns 7%nat) traceback.

Definition io_error : Py.exn :=
  Py.mk_exn Py.IOError (Some (Py.VStr "Connection refused")).

Definition value_error : Py.exn :=
  Py.mk_exn Py.ValueError (Some (Py.VStr "boom")).

(** The supervisor gives up after its bound and stores the timeout; the
    worker's call then returns and the worker stores its tuple; the
    supervisor reads the slot for its [return]. *)
Definition timeout_recorded : list action :=
  [Sup; Sup; Sup; Elapse; Sup; Sup; Sup].

Definition late_write : list action := [Wrk; Wrk].

Definition key_error : Py.exn := Py.mk_exn Py.KeyError (Some (Py.VInt 5)).

(** The port of the browser never opens. *)
Definition never_opens : MarionetteProtocol.remote :=
  MarionetteProtocol.mk_remote (fun _ => false) (Py.Ok tt) (Py.Ok tt)
    (Py.Ok tt).

(** A browser with the runner window open and current. *)
Definition one_window : Browser.browser :=
  Browser.mk_browser [0%nat] (Some 0%nat) 1.

(** The browser is up and the session starts, but loading the runner page
    fails (nothing listens on the content server's port); scripts still
    run in the remote context. *)
Definition page_unreachable : MarionetteProtocol.remote :=
  MarionetteProtocol.mk_remote (fun _ => true) (Py.Ok tt)
    (Py.Raise (Py.mk_exn Py.MarionetteException
                 (Some (Py.VStr "Error loading page"))))
    (Py.Ok tt).

(** The browser is up and the session starts, but the remote context
    refuses scripts. *)
Definition script_refused : MarionetteProtocol.remote :=
  MarionetteProtocol.mk_remote (fun _ => true) (Py.Ok tt) (Py.Ok tt)
    (Py.Raise (Py.mk_exn Py.MarionetteException
                 (Some (Py.VStr "JavaScript error")))).

(** A testharness executor outside the debugger, one of its tests, and a
    result converter. *)
Definition harness : MarionetteTestharnessExecutor.executor :=
  MarionetteTestharnessExecutor.mk_executor 1 None true.

Definition a_test : MarionetteTestharnessExecutor.test :=
  MarionetteTestharnessExecutor.mk_test "/dom/a.html" 10.

Definition converter (t : MarionetteTestharnessExecutor.test) (payload : nat)
  : Py.res (MarionetteTestharnessExecutor.harness_result * list nat) :=
  Py.Ok (MarionetteTestharnessExecutor.mk_result "OK" DNone, [payload]).

(** The client cannot decode what the browser answered. *)
Definition invalid_response : Py.exn :=
  Py.mk_exn Py.InvalidResponseException
    (Some (Py.VStr "Could not decode response")).

(** A remote call that fails with [e] on a connection that works. *)
Definition failing (e : Py.exn) : world nat := healthy (Raises e).

(** A stand-in for [urlparse.urljoin] and for the script template: the
    template's text is the [timeout] entry of the mapping. *)
Definition join (base relative : string) : string := (base ++ relative)%string.

Definition render_timeout (m : MarionetteTestharnessExecutor.substitution)
  : Py.res string :=
  Py.Ok (MarionetteTestharnessExecutor.s_timeout m).

(** The window-closing script runs; the test script never calls back. *)
Definition hanging_script : MarionetteTestharnessExecutor.script_remote nat :=
  MarionetteTestharnessExecutor.mk_script_remote nat (Returns tt)
    (fun _ => Hangs).

(** A testharness executor under the debugger. *)
Definition harness_debug : MarionetteTestharnessExecutor.executor :=
  MarionetteTestharnessExecutor.mk_executor 1 (Some ["gdb"]) true.

(** A page that loads, settles, and is captured as a data url. *)
Definition captured : MarionetteRefTestExecutor.shot_remote :=
  MarionetteRefTestExecutor.mk_shot_remote (Returns tt) (Returns tt)
    (Returns "data:image/png;base64,iVBORw0KGgo=").

Definition load_failed (full_url : string) : Py.exn :=
  Py.mk_exn Py.ExecutorException (Some (Py.VStr "Failed to load url")).

(** Under the debugger the browser is slow to start: the port is found
    open at the third poll. *)
Definition opens_at_third_poll : MarionetteProtocol.remote :=
  MarionetteProtocol.mk_remote (fun n => Nat.leb 2 n) (Py.Ok tt) (Py.Ok tt)
    (Py.Ok tt).

(** A browser whose session has lost its current window. *)
Definition no_context : Browser.browser :=
  Browser.mk_browser [0%nat] None 1.



End Scenarios.

(* ================================================================== *)
(** * Properties of MarionetteRun *)
(* ================================================================== *)

Section RunFacts.

Import MarionetteRun.

Variable V : Type.
Variable w : world V.
Variable timeout : option Z.
Variable g : binding.

Lemma exec_app (sch sch' : list action) (s : state V) :
  exec V w timeout (sch ++ sch') s
  = exec V w timeout sch' (exec V w timeout sch s).
Proof.
  revert s. induction sch as [|a sch IH]; intros s; simpl.
  - reflexivity.
  - apply IH.
Qed.

Lemma inv_init : inv V w g (init V g).
Proof.
  unfold inv, init, recorded; simpl.
  repeat split; try (intros; discriminate); auto.
Qed.

Lemma worker_outcome_returns (v : V) :
  func V w = Returns v -> worker_outcome V g w = Some (Completed v).
Proof. unfold worker_outcome. intros ->. reflexivity. Qed.

Lemma worker_outcome_raises (e : Py.exn) :
  func V w = Raises e ->
  worker_outcome V g w
  = match snd (_run_except V g (format_exc V w) e) with
    | Py.Ok o => Some o
    | Py.Raise _ => None
    end.
Proof. unfold worker_outcome. intros ->. reflexivity. Qed.

Ltac inj :=
  repeat match goal with
         | H : ?f ?a = ?f ?b |- _ =>
             assert (a = b) by congruence; clear H; subst
         end.

Ltac use_refl :=
  repeat match goal with
         | H : forall x, _ = _ -> _ |- _ => specialize (H _ eq_refl)
         | H : ?a = ?a -> _ |- _ => specialize (H eq_refl)
         end.

Ltac finish :=
  simpl in *; repeat split; intros; subst; inj; use_refl;
  try discriminate; try congruence;
  try solve [eauto];
  try solve [intuition (subst; simpl in *; try discriminate; try congruence; eauto)];
  try solve [repeat match goal with
                    | H : context [match ?x with _ => _ end] |- _ =>
                        destruct x eqn:?; simpl in *
                    | |- context [match ?x with _ => _ end] =>
                        destruct x eqn:?; simpl in *
                    end;
             intuition (subst; simpl in *; try discriminate; try congruence; eauto)].

Lemma inv_step (a : action) (s : state V) :
  inv V w g s -> inv V w g (step V w timeout a s).
Proof.
  destruct s as [res flag gb sp wp se we].
  unfold inv, recorded. simpl.
  intros (I1 & I2 & I3 & I4 & I4' & I4'' & IH & I5 & I6 & I7 & I8 & I9 & I9' & I10).
  destruct a; unfold step, run_step, wait_elapses, _run_step; simpl.
  - destruct sp; simpl.
    + destruct (set_script_timeout V w) eqn:E; simpl.
      * finish.
      * destruct (Py.isinstance e Py.IOError); simpl; finish.
    + finish.
    + finish.
    + destruct flag; finish.
    + destruct res; finish.
    + destruct flag0; finish.
    + finish.
    + finish.
    + finish.
    + finish.
  - destruct sp; simpl; try tauto.
    destruct (wait_timeout timeout); simpl; finish.
  - destruct wp; simpl.
    + finish.
    + destruct (func V w) eqn:F; simpl.
      * pose proof (worker_outcome_returns _ F). finish.
      * pose proof (worker_outcome_raises _ F) as Hw.
        destruct I3 as [-> | [? _]]; [|discriminate].
        destruct (_run_except V g (format_exc V w) e) as [log r]; simpl in *.
        destruct r; finish.
      * finish.
    + pose proof (I2 _ eq_refl) as E. rewrite E in *. finish.
    + finish.
    + finish.
Qed.


Lemma inv_exec (sch : list action) (s : state V) :
  inv V w g s -> inv V w g (exec V w timeout sch s).
Proof.
  revert s. induction sch as [|a sch IH]; intros s Hs; simpl.
  - exact Hs.
  - apply IH, inv_step, Hs.
Qed.

Lemma inv_unbounded_init : inv_unbounded V w g (init V g).
Proof. unfold inv_unbounded, recorded, init; simpl. auto. Qed.




Lemma inv_events_init : inv_events V timeout (init V g).
Proof. reflexivity. Qed.

Lemma inv_events_step (a : action) (s : state V) :
  set_script_timeout V w = Py.Ok tt ->
  inv_events V timeout s -> inv_events V timeout (step V w timeout a s).
Proof.
  intros Hok.
  destruct s as [res flag gb sp wp se we].
  unfold inv_events, run_events. simpl. intros H.
  destruct a; unfold step, run_step, wait_elapses, _run_step; simpl.
  - rewrite Hok. destruct sp; simpl; subst; simpl; auto.
    + destruct flag; simpl; auto.
    + destruct res; simpl; auto.
    + destruct flag0; simpl; auto.
  - destruct sp; simpl; auto. destruct (wait_timeout timeout); simpl; auto.
  - destruct wp; simpl; auto.
    destruct (func V w); simpl; auto.
    destruct (_run_except V gb (format_exc V w) e) as [log [o|e']]; simpl; auto.
Qed.

Lemma inv_events_exec (sch : list action) (s : state V) :
  set_script_timeout V w = Py.Ok tt ->
  inv_events V timeout s -> inv_events V timeout (exec V w timeout sch s).
Proof.
  intros Hok. revert s. induction sch as [|a sch IH]; intros s Hs; simpl.
  - exact Hs.
  - apply IH, inv_events_step; assumption.
Qed.

Lemma sup_rank_finished (s : state V) :
  sup_rank V s = 0%nat <-> finished V s = true.
Proof.
  unfold sup_rank, finished. destruct (sup V s); split; intros H;
    try reflexivity; discriminate.
Qed.

Lemma sup_rank_step (a : action) (s : state V) :
  (sup_rank V (step V w timeout a s) <= sup_rank V s)%nat.
Proof.
  destruct s as [res flag gb sp wp se we].
  destruct a; unfold step, run_step, wait_elapses, _run_step, sup_rank; simpl.
  - destruct sp; simpl; try lia.
    + destruct (set_script_timeout V w) as [|e]; simpl; try lia.
      destruct (Py.isinstance e Py.IOError); simpl; lia.
    + destruct flag; simpl; lia.
    + destruct res; simpl; lia.
    + destruct flag0; simpl; lia.
  - destruct sp; simpl; try lia.
    destruct (wait_timeout timeout); simpl; lia.
  - destruct wp; simpl; try lia.
    + destruct (func V w); simpl; try lia.
      destruct (_run_except V gb (format_exc V w) e) as [log [o|e']];
        simpl; lia.
Qed.

Lemma sup_rank_sup (s : state V) :
  sup_rank V s <> 5%nat ->
  (sup_rank V (step V w timeout Sup s) <= pred (sup_rank V s))%nat.
Proof.
  destruct s as [res flag gb sp wp se we].
  unfold step, run_step, sup_rank; simpl.
  destruct sp; simpl; try lia.
  - destruct (set_script_timeout V w) as [|e]; simpl; try lia.
    destruct (Py.isinstance e Py.IOError); simpl; lia.
  - destruct res; simpl; lia.
  - destruct flag0; simpl; lia.
Qed.

Lemma sup_rank_elapse (d : Z) (s : state V) :
  timeout = Some d ->
  (sup_rank V s <= 5)%nat ->
  (sup_rank V (step V w timeout Elapse s) <= 4)%nat.
Proof.
  intros ->.
  destruct s as [res flag gb sp wp se we].
  unfold step, wait_elapses, sup_rank; simpl.
  destruct sp; simpl; lia.
Qed.

Lemma sup_rank_sup_le (n : nat) (s : state V) :
  n <> 4%nat ->
  (sup_rank V s <= S n)%nat ->
  (sup_rank V (step V w timeout Sup s) <= n)%nat.
Proof.
  intros Hn Hs.
  destruct (Nat.eq_dec (sup_rank V s) 5) as [E|E].
  - pose proof (sup_rank_step Sup s). lia.
  - pose proof (sup_rank_sup s E). lia.
Qed.

Lemma bound_elapses_finishes (d : Z) (s : state V) :
  timeout = Some d ->
  finished V (exec V w timeout bound_elapses s) = true.
Proof.
  intros Ht. apply sup_rank_finished.
  unfold bound_elapses. simpl.
  assert (H8 : (sup_rank V s <= 8)%nat)
    by (unfold sup_rank; destruct (sup V s); lia).
  apply (sup_rank_sup_le 7) in H8; [|lia].
  apply (sup_rank_sup_le 6) in H8; [|lia].
  apply (sup_rank_sup_le 5) in H8; [|lia].
  apply (sup_rank_elapse d _ Ht) in H8.
  apply (sup_rank_sup_le 3) in H8; [|lia].
  apply (sup_rank_sup_le 2) in H8; [|lia].
  apply (sup_rank_sup_le 1) in H8; [|lia].
  apply (sup_rank_sup_le 0) in H8; [|lia].
  lia.
Qed.


Lemma finished_step (a : action) (s : state V) :
  finished V s = true -> sup V (step V w timeout a s) = sup V s.
Proof.
  destruct s as [res flag gb sp wp se we].
  unfold finished; simpl. intros H.
  destruct a; unfold step, run_step, wait_elapses, _run_step; simpl.
  - destruct sp; try discriminate; reflexivity.
  - destruct sp; try discriminate; reflexivity.
  - destruct wp; simpl; try reflexivity.
    destruct (func V w); simpl; try reflexivity.
    destruct (_run_except V gb (format_exc V w) e) as [log [o|e']];
      reflexivity.
Qed.

Lemma finished_exec (sch : list action) (s : state V) :
  finished V s = true -> sup V (exec V w timeout sch s) = sup V s.
Proof.
  revert s. induction sch as [|a sch IH]; intros s H; simpl.
  - reflexivity.
  - rewrite IH.
    + apply finished_step, H.
    + unfold finished. rewrite finished_step by exact H. exact H.
Qed.

Lemma worker_runs_out (s : state V) :
  func V w <> Hangs ->
  wrk V s <> NotStarted ->
  wrk V (exec V w timeout [Wrk; Wrk; Wrk] s) = Finished
  /\ sup V (exec V w timeout [Wrk; Wrk; Wrk] s) = sup V s.
Proof.
  destruct s as [res flag gb sp wp se we]. simpl. intros Hf Hw.
  unfold step, _run_step; simpl.
  destruct wp; simpl; try (split; reflexivity).
  - congruence.
  - destruct (func V w); simpl; try (split; reflexivity).
    + destruct (_run_except V gb (format_exc V w) e) as [log [o|e']];
        simpl; split; reflexivity.
    + congruence.
Qed.



Lemma sup_rank_le_8 (s : state V) : (sup_rank V s <= 8)%nat.
Proof. unfold sup_rank. destruct (sup V s); lia. Qed.

Lemma sup_rank_three (s : state V) :
  (sup_rank V (exec V w timeout [Sup; Sup; Sup] s) <= 5)%nat.
Proof.
  pose proof (sup_rank_le_8 s) as H. simpl.
  apply (sup_rank_sup_le 7) in H; [|lia].
  apply (sup_rank_sup_le 6) in H; [|lia].
  apply (sup_rank_sup_le 5) in H; [|lia].
  exact H.
Qed.

Lemma finished_after (sch : list action) (s : state V) :
  finished V s = true -> finished V (exec V w timeout sch s) = true.
Proof.
  intros F. unfold finished. rewrite finished_exec by exact F. exact F.
Qed.



Lemma worker_completes_split (s : state V) :
  exec V w timeout worker_completes s
  = exec V w timeout [Sup; Sup; Sup]
      (exec V w timeout [Wrk; Wrk; Wrk] (exec V w timeout [Sup; Sup; Sup] s)).
Proof.
  assert (E : worker_completes
              = [Sup; Sup; Sup] ++ ([Wrk; Wrk; Wrk] ++ [Sup; Sup; Sup]))
    by reflexivity.
  rewrite E.
  rewrite (exec_app [Sup; Sup; Sup] ([Wrk; Wrk; Wrk] ++ [Sup; Sup; Sup]) s).
  rewrite (exec_app [Wrk; Wrk; Wrk] [Sup; Sup; Sup]).
  reflexivity.
Qed.


Lemma bound_elapses_times_out (d : Z) (s : state V) :
  timeout = Some d ->
  set_script_timeout V w = Py.Ok tt ->
  func V w = Hangs ->
  inv V w g s -> inv_events V timeout s ->
  sup V (exec V w timeout bound_elapses s)
  = Returned (RetResult (Some timed_out)).
Proof.
  intros Ht Hok Hf Hi He.
  pose proof (bound_elapses_finishes d s Ht) as F.
  pose proof (inv_exec bound_elapses s Hi) as Hi'.
  pose proof (inv_events_exec bound_elapses s Hok He) as He'.
  revert F Hi' He'.
  generalize (exec V w timeout bound_elapses s). intros s' F Hi' He'.
  destruct Hi' as (I1 & _ & _ & _ & _ & _ & IH & _ & I6 & _ & _ & _ & _ & I10).
  specialize (IH Hf).
  assert (Hrec : recorded V g w s' = false).
  { unfold recorded. destruct IH as [W | W]; rewrite W; reflexivity. }
  specialize (I6 Hrec). destruct I6 as (_ & _ & I6).
  unfold finished in F. unfold inv_events in He'.
  destruct (sup V s') as [| | | | | | | | [|x] | e] eqn:Es; try discriminate.
  - contradiction.
  - rewrite (I6 x eq_refl). reflexivity.
  - destruct (I10 e eq_refl) as [E | [_ E]].
    + congruence.
    + rewrite I1 in E. destruct IH as [W | W]; rewrite W in E; discriminate.
Qed.

Lemma inv_assert_init : inv_assert V w g (init V g).
Proof.
  unfold inv_assert, init, recorded; simpl.
  repeat split; intros; discriminate.
Qed.

Lemma inv_assert_step (a : action) (s : state V) :
  inv V w g s -> inv_assert V w g s ->
  inv_assert V w g (step V w timeout a s).
Proof.
  destruct s as [res flag gb sp wp se we].
  unfold inv, inv_assert, recorded. simpl.
  intros (I1 & I2 & I3 & I4 & I4' & I4'' & IH & I5 & I6 & I7 & I8 & I9 & I9' & I10).
  intros (A1 & A2 & A3 & A4).
  destruct a; unfold step, run_step, wait_elapses, _run_step; simpl.
  - destruct sp; simpl.
    + destruct (set_script_timeout V w) eqn:E; simpl.
      * finish.
      * destruct (Py.isinstance e Py.IOError) eqn:Eio; simpl; finish.
    + finish.
    + finish.
    + destruct flag; finish.
    + destruct res eqn:R; simpl.
      * finish.
      * repeat split; intros; try discriminate; auto.
        assert (flag0 = true) by congruence. subst flag0.
        specialize (I9 eq_refl). subst flag.
        destruct wp; try discriminate.
        destruct (worker_outcome V g w); [|reflexivity].
        exfalso. apply A1; reflexivity.
    + destruct flag0; simpl.
      * repeat split; intros; try discriminate; auto.
        -- right. split; [unfold assertion_error; congruence | auto].
        -- assert (E : e = assertion_error)
             by (unfold assertion_error; congruence).
           rewrite E. reflexivity.
      * finish.
    + finish.
    + finish.
    + finish.
    + finish.
  - destruct sp; simpl; try tauto.
    destruct (wait_timeout timeout); simpl; finish.
  - destruct wp; simpl.
    + finish.
    + destruct (func V w) eqn:F; simpl.
      * pose proof (worker_outcome_returns _ F). finish.
      * pose proof (worker_outcome_raises _ F) as Hw.
        destruct I3 as [-> | [? _]]; [|discriminate].
        destruct (_run_except V g (format_exc V w) e) as [log r]; simpl in *.
        destruct r; finish.
      * finish.
    + pose proof (I2 _ eq_refl) as E. rewrite E in *. finish.
    + finish.
    + finish.
Qed.

Lemma inv_assert_exec (sch : list action) (s : state V) :
  inv V w g s -> inv_assert V w g s ->
  inv_assert V w g (exec V w timeout sch s).
Proof.
  revert s. induction sch as [|a sch IH]; intros s Hs Ha; simpl.
  - exact Ha.
  - apply IH; [apply inv_step, Hs | apply inv_assert_step; assumption].
Qed.

(** While the bound of [wait] does not run out, a call with a deadline
    goes through the states of a call without one. *)
Lemma inv_unbounded_step_quiet (a : action) (s : state V) :
  timeout = None \/ a <> Elapse ->
  inv V w g s -> inv_unbounded V w g s ->
  inv_unbounded V w g (step V w timeout a s).
Proof.
  intros Hq.
  destruct s as [res flag gb sp wp se we].
  unfold inv, inv_unbounded, recorded. simpl.
  intros (I1 & I2 & I3 & I4 & I4' & I4'' & IH & I5 & I6 & I7 & I8 & I9 & I9' & I10).
  intros (U1 & U2).
  destruct a; unfold step, run_step, wait_elapses, _run_step; simpl.
  - destruct sp; simpl.
    + destruct (set_script_timeout V w) eqn:E; simpl.
      * finish.
      * destruct (Py.isinstance e Py.IOError); simpl; finish.
    + finish.
    + finish.
    + destruct flag; finish.
    + destruct res; finish.
    + destruct flag0; finish.
    + finish.
    + finish.
    + finish.
    + finish.
  - destruct Hq as [Ht | Hq]; [|congruence].
    rewrite Ht. destruct sp; simpl; finish.
  - destruct wp; simpl.
    + finish.
    + destruct (func V w) eqn:F; simpl.
      * pose proof (worker_outcome_returns _ F). finish.
      * pose proof (worker_outcome_raises _ F) as Hw.
        destruct I3 as [-> | [? _]]; [|discriminate].
        destruct (_run_except V g (format_exc V w) e) as [log r]; simpl in *.
        destruct r; finish.
      * finish.
    + pose proof (I2 _ eq_refl) as E. rewrite E in *. finish.
    + finish.
    + finish.
Qed.

Lemma inv_unbounded_exec_quiet (sch : list action) (s : state V) :
  timeout = None \/ ~ In Elapse sch ->
  inv V w g s -> inv_unbounded V w g s ->
  inv_unbounded V w g (exec V w timeout sch s).
Proof.
  revert s. induction sch as [|a sch IH]; intros s Hq Hs Hu; simpl.
  - exact Hu.
  - apply IH.
    + destruct Hq as [Ht | Hq]; [left; exact Ht | right].
      intros Hin. apply Hq. right. exact Hin.
    + apply inv_step, Hs.
    + apply inv_unbounded_step_quiet; try assumption.
      destruct Hq as [Ht | Hq]; [left; exact Ht | right].
      intros ->. apply Hq. left. reflexivity.
Qed.

Lemma supervisor_runs_out_quiet (s : state V) :
  inv_unbounded V w g s ->
  result_flag V s = true ->
  (sup_rank V s <= 5)%nat ->
  finished V (exec V w timeout [Sup; Sup; Sup] s) = true.
Proof.
  destruct s as [res flag gb sp wp se we].
  unfold inv_unbounded, sup_rank, finished. simpl.
  intros [U1 U2] Hflag Hrank. subst flag.
  unfold step, run_step; simpl.
  destruct sp; simpl in *; try lia; try reflexivity.
  - destruct res; reflexivity.
  - destruct U2 as [-> _]. destruct res; reflexivity.
  - destruct U2 as [-> _]. reflexivity.
Qed.

Lemma completes_tail_quiet (o : outcome V) (s : state V) :
  set_script_timeout V w = Py.Ok tt ->
  worker_outcome V g w = Some o ->
  inv V w g s -> inv_unbounded V w g s -> inv_events V timeout s ->
  finished V s = true
  \/ result_flag V s = true /\ (sup_rank V s <= 5)%nat ->
  sup V (exec V w timeout [Sup; Sup; Sup] s)
  = Returned (RetResult (Some o)).
Proof.
  intros Hok Ho Hi Hu He Hcase.
  assert (F : finished V (exec V w timeout [Sup; Sup; Sup] s) = true).
  { destruct Hcase as [F | [Hflag Hrank]].
    - apply finished_after, F.
    - apply supervisor_runs_out_quiet; assumption. }
  assert (Hq : timeout = None \/ ~ In Elapse [Sup; Sup; Sup]).
  { right. simpl. intros [H | [H | [H | []]]]; discriminate. }
  pose proof (inv_unbounded_exec_quiet [Sup; Sup; Sup] s Hq Hi Hu) as Hu'.
  pose proof (inv_events_exec [Sup; Sup; Sup] s Hok He) as He'.
  revert F Hu' He'.
  generalize (exec V w timeout [Sup; Sup; Sup] s). intros s' F Hu' He'.
  unfold finished in F. unfold inv_unbounded in Hu'.
  unfold inv_events in He'. destruct Hu' as [_ U].
  destruct (sup V s') as [| | | | | | | | [|x] | e]; try discriminate.
  - contradiction.
  - destruct U as (-> & _). rewrite Ho. reflexivity.
  - destruct U as [U | [U _]]; congruence.
Qed.

Lemma completes_from_quiet (o : outcome V) (s : state V) :
  set_script_timeout V w = Py.Ok tt ->
  worker_outcome V g w = Some o ->
  inv V w g s -> inv_unbounded V w g s -> inv_events V timeout s ->
  (sup_rank V s <= 5)%nat ->
  sup V (exec V w timeout [Sup; Sup; Sup] (exec V w timeout [Wrk; Wrk; Wrk] s))
  = Returned (RetResult (Some o)).
Proof.
  intros Hok Ho Hi Hu He Hr.
  assert (Hfun : func V w <> Hangs).
  { intros E. unfold worker_outcome in Ho. rewrite E in Ho. discriminate. }
  assert (Hq : timeout = None \/ ~ In Elapse [Wrk; Wrk; Wrk]).
  { right. simpl. intros [H | [H | [H | []]]]; discriminate. }
  pose proof (inv_exec [Wrk; Wrk; Wrk] s Hi) as Hi2.
  apply completes_tail_quiet; try assumption.
  - apply inv_unbounded_exec_quiet; assumption.
  - apply inv_events_exec; assumption.
  - destruct (finished V s) eqn:F.
    + left. apply finished_after, F.
    + right.
      assert (Hw : wrk V s <> NotStarted).
      { intros E. destruct Hi as (_ & _ & _ & _ & _ & I & _).
        specialize (I E). unfold finished in F. unfold sup_rank in Hr.
        destruct (sup V s) as [| | | | | | | | [|] |]; try contradiction;
          try discriminate; lia. }
      destruct (worker_runs_out s Hfun Hw) as [Hw2 Hs2].
      split.
      * destruct Hi2 as (I1 & _). rewrite I1, Hw2. reflexivity.
      * unfold sup_rank. rewrite Hs2. exact Hr.
Qed.

Lemma worker_completes_returns_quiet (o : outcome V) (s : state V) :
  set_script_timeout V w = Py.Ok tt ->
  worker_outcome V g w = Some o ->
  inv V w g s -> inv_unbounded V w g s -> inv_events V timeout s ->
  sup V (exec V w timeout worker_completes s)
  = Returned (RetResult (Some o)).
Proof.
  intros Hok Ho Hi Hu He.
  assert (Hq : timeout = None \/ ~ In Elapse [Sup; Sup; Sup]).
  { right. simpl. intros [H | [H | [H | []]]]; discriminate. }
  rewrite worker_completes_split.
  apply completes_from_quiet; try assumption.
  - apply inv_exec, Hi.
  - apply inv_unbounded_exec_quiet; assumption.
  - apply inv_events_exec; assumption.
  - apply sup_rank_three.
Qed.

(** A worker that cannot leave its remote call never sets the flag. *)
Lemma hangs_flag_unset (s : state V) :
  func V w = Hangs -> inv V w g s -> result_flag V s = false.
Proof.
  intros Hf (I1 & _ & _ & _ & _ & _ & IH & _).
  rewrite I1. destruct (IH Hf) as [E | E]; rewrite E; reflexivity.
Qed.

(** Left to itself, the worker comes to its end and the supervisor, woken
    by the flag, comes to its end after it. *)
Lemma worker_completes_finishes (s : state V) :
  func V w <> Hangs ->
  inv V w g s -> inv_unbounded V w g s ->
  finished V (exec V w timeout worker_completes s) = true.
Proof.
  intros Hfun Hi Hu.
  assert (Hq : forall a, timeout = None \/ ~ In Elapse [a; a; a] \/ a = Elapse).
  { intros a. destruct a; [right; left | right; right; reflexivity
                           | right; left];
      simpl; intros [H | [H | [H | []]]]; discriminate. }
  assert (Hs : timeout = None \/ ~ In Elapse [Sup; Sup; Sup]).
  { destruct (Hq Sup) as [H | [H | H]]; [left; exact H | right; exact H
                                        | discriminate]. }
  assert (Hw : timeout = None \/ ~ In Elapse [Wrk; Wrk; Wrk]).
  { destruct (Hq Wrk) as [H | [H | H]]; [left; exact H | right; exact H
                                        | discriminate]. }
  rewrite worker_completes_split.
  pose proof (inv_exec [Sup; Sup; Sup] s Hi) as Hi1.
  pose proof (inv_unbounded_exec_quiet [Sup; Sup; Sup] s Hs Hi Hu) as Hu1.
  pose proof (sup_rank_three s) as Hr.
  revert Hi1 Hu1 Hr.
  generalize (exec V w timeout [Sup; Sup; Sup] s). intros s1 Hi1 Hu1 Hr.
  pose proof (inv_exec [Wrk; Wrk; Wrk] s1 Hi1) as Hi2.
  pose proof (inv_unbounded_exec_quiet [Wrk; Wrk; Wrk] s1 Hw Hi1 Hu1) as Hu2.
  destruct (finished V s1) eqn:F.
  - apply finished_after, finished_after, F.
  - assert (Hn : wrk V s1 <> NotStarted).
    { intros E. destruct Hi1 as (_ & _ & _ & _ & _ & I & _).
      specialize (I E). unfold finished in F. unfold sup_rank in Hr.
      destruct (sup V s1) as [| | | | | | | | [|] |]; try contradiction;
        try discriminate; lia. }
    destruct (worker_runs_out s1 Hfun Hn) as [Hw2 Hs2].
    apply supervisor_runs_out_quiet.
    + exact Hu2.
    + destruct Hi2 as (I1 & _). rewrite I1, Hw2. reflexivity.
    + unfold sup_rank. rewrite Hs2. exact Hr.
Qed.

(** When [set_script_timeout] raises, the first step of the supervisor is
    its last, and neither thread does anything after it. *)
Lemma set_timeout_raises_exec (e : Py.exn) (sch : list action) :
  set_script_timeout V w = Py.Raise e ->
  exec V w timeout sch (init V g)
  = if existsb (fun a => match a with Sup => true | _ => false end) sch
    then if Py.isinstance e Py.IOError
         then mk_state V None false (Rebound e) (Returned RetStop) NotStarted
                [SetScriptTimeout (script_timeout timeout);
                 Log Error "Lost marionette connection before starting test"]
                []
         else mk_state V None false g (Raised e) NotStarted
                [SetScriptTimeout (script_timeout timeout)] []
    else init V g.
Proof.
  intros Hraise.
  assert (Hfix : forall sch' b pc evs,
             finished V (mk_state V None false b pc NotStarted evs []) = true ->
             exec V w timeout sch' (mk_state V None false b pc NotStarted evs [])
             = mk_state V None false b pc NotStarted evs []).
  { induction sch' as [|a sch' IH]; intros b pc evs F; [reflexivity|].
    simpl.
    assert (E : step V w timeout a (mk_state V None false b pc NotStarted evs [])
                = mk_state V None false b pc NotStarted evs []).
    { unfold finished in F. simpl in F.
      destruct a; unfold step, run_step, wait_elapses, _run_step; simpl;
        destruct pc; try discriminate; reflexivity. }
    rewrite E. apply IH, F. }
  induction sch as [|a sch IH].
  - reflexivity.
  - destruct a.
    + simpl exec. simpl existsb.
      unfold step, run_step. simpl. rewrite Hraise.
      destruct (Py.isinstance e Py.IOError); simpl; apply Hfix; reflexivity.
    + simpl. exact IH.
    + simpl. exact IH.
Qed.







End RunFacts.

Section RunTheorems.

Import MarionetteRun.

Variable V : Type.
Variable w : world V.
Variable g : binding.




Lemma reach_inv (timeout : option Z) (sch : list action) :
  inv V w g (exec V w timeout sch (init V g)).
Proof. apply inv_exec, inv_init. Qed.

Lemma reach_inv_events (timeout : option Z) (sch : list action) :
  set_script_timeout V w = Py.Ok tt ->
  inv_events V timeout (exec V w timeout sch (init V g)).
Proof. intros H. apply inv_events_exec; [exact H | apply inv_events_init]. Qed.


(** The [except] clauses of [_run], clause by clause. *)
Lemma _run_except_classes (fmt : Py.exn -> string) (e : Py.exn) :
  snd (_run_except V g fmt e)
  = if Py.isinstance e Py.ScriptTimeoutException
    then Py.Ok (Failed "EXTERNAL-TIMEOUT" DNone)
    else if matches_crash g e
         then Py.Ok (Failed "CRASH" DNone)
         else match Py.getattr_message e with
              | Py.VStr _ => Py.Ok (Failed "ERROR" (DExc e))
              | _ =>
                  Py.Raise
                    (Py.mk_exn Py.TypeError
                       (Some (Py.VStr "unsupported operand type(s) for +=")))
              end.
Proof.
  unfold _run_except.
  destruct (Py.isinstance e Py.ScriptTimeoutException); [reflexivity|].
  destruct (matches_crash g e); [reflexivity|]. simpl.
  destruct (Py.getattr_message e) as [|z|m]; simpl.
  - reflexivity.
  - destruct (z =? 0); reflexivity.
  - destruct (String.eqb m ""); reflexivity.
Qed.

(** Where what the supervisor returns comes from. *)
Lemma returned_provenance (timeout : option Z) (sch : list action)
  (r : ret V) :
  sup V (exec V w timeout sch (init V g)) = Returned r ->
  match r with
  | RetStop =>
      exists e, set_script_timeout V w = Py.Raise e
                /\ Py.isinstance e Py.IOError = true
  | RetResult None => False
  | RetResult (Some (Completed v)) => func V w = Returns v
  | RetResult (Some (Failed st d)) =>
      st = "EXTERNAL-TIMEOUT" /\ d = DNone
      \/ (st = "CRASH" /\ d = DNone
          /\ exists e, func V w = Raises e /\ matches_crash g e = true)
      \/ (st = "ERROR"
          /\ exists e, func V w = Raises e /\ d = DExc e
                       /\ matches_crash g e = false
                       /\ Py.isinstance e Py.ScriptTimeoutException = false)
  end.
Proof.
  intros H.
  destruct (set_script_timeout V w) as [[] | e0] eqn:Hset.
  - pose proof (reach_inv timeout sch) as Hi.
    pose proof (reach_inv_events timeout sch Hset) as He.
    revert H Hi He. generalize (exec V w timeout sch (init V g)).
    intros s Es Hi He. unfold inv_events in He. rewrite Es in He.
    destruct r as [|x]; [contradiction|].
    destruct Hi as (_ & _ & _ & _ & _ & _ & _ & _ & _ & _ & I8 & _).
    destruct (I8 x Es) as [-> | [Hx Hn]].
    + left. split; reflexivity.
    + subst x. unfold worker_outcome in *.
      destruct (func V w) as [v | e |] eqn:F.
      * reflexivity.
      * rewrite _run_except_classes in *.
        destruct (Py.isinstance e Py.ScriptTimeoutException) eqn:E1.
        { left. split; reflexivity. }
        destruct (matches_crash g e) eqn:E2.
        { right. left. repeat split. exists e.
          split; [reflexivity | exact E2]. }
        destruct (Py.getattr_message e); try congruence.
        right. right. split; [reflexivity|]. exists e.
        repeat split; assumption.
      * congruence.
  - rewrite (set_timeout_raises_exec V w timeout g e0 sch Hset) in H.
    destruct (existsb _ sch); [|discriminate].
    destruct (Py.isinstance e0 Py.IOError) eqn:Eio; simpl in H.
    + assert (r = RetStop) by congruence. subst r.
      exists e0. split; [reflexivity | exact Eio].
    + discriminate.
Qed.

(** While the remote call hangs and the bound of [wait] does not run
    out, the supervisor does not come to its end. *)
Lemma hangs_not_finished (timeout : option Z) (sch : list action) :
  set_script_timeout V w = Py.Ok tt ->
  func V w = Hangs ->
  timeout = None \/ ~ In Elapse sch ->
  finished V (exec V w timeout sch (init V g)) = false.
Proof.
  intros Hok Hf Hq.
  pose proof (reach_inv timeout sch) as Hi.
  pose proof (inv_unbounded_exec_quiet V w timeout g sch _ Hq
                (inv_init V w g) (inv_unbounded_init V w g)) as Hu.
  pose proof (reach_inv_events timeout sch Hok) as He.
  revert Hi Hu He. generalize (exec V w timeout sch (init V g)).
  intros s Hi Hu He.
  pose proof (hangs_flag_unset V w g s Hf Hi) as Hflag.
  destruct Hu as [_ U]. unfold inv_events in He. unfold finished.
  destruct (sup V s) as [| | | | | | | | [|x] | e]; try reflexivity.
  - contradiction.
  - destruct U as (_ & _ & U). congruence.
  - destruct U as [U | [_ U]]; congruence.
Qed.

End RunTheorems.

(* ================================================================== *)
(** * MarionetteRun: the claims *)
(* ================================================================== *)

Section RunClaims.

Import MarionetteRun.

Variable V : Type.
Variable w : world V.
Variable g : binding.


(** C2, as the code has it. A call of [run] that returns hands back one
    outcome: the supervisor's timeout or the tuple the worker stored. Once
    [run] has returned, nothing either thread does changes what it
    returned. The worker's store itself is unconditional: whatever the
    slot holds, it holds the worker's tuple afterwards. *)
Theorem run_single_outcome (timeout : option Z) (sch : list action) :
  let s := exec V w timeout sch (init V g) in
  (forall x, sup V s = Returned (RetResult x) ->
     x = Some timed_out \/ x = worker_outcome V g w /\ x <> None)
  /\ (forall r sch', sup V s = Returned r ->
      sup V (exec V w timeout sch' s) = Returned r)
  /\ (forall o, wrk V s = Storing o ->
      result V (step V w timeout Wrk s) = Some o).
Proof.
  intros s. split; [|split].
  - pose proof (reach_inv V w g timeout sch) as Hi. fold s in Hi.
    destruct Hi as (_ & _ & _ & _ & _ & _ & _ & _ & _ & _ & I8 & _).
    exact I8.
  - intros r sch' Hr. rewrite finished_exec; [exact Hr|].
    unfold finished. rewrite Hr. reflexivity.
  - intros o Ho. unfold step, _run_step. rewrite Ho. reflexivity.
Qed.

(** C6, as the code has it. When [set_script_timeout] raises an [IOError]
    (socket errors included), [run] logs the lost connection and returns
    the [Stop] sentinel: it makes that one remote call, starts no worker
    and stores no outcome. *)
Theorem run_lost_connection (timeout : option Z) (e : Py.exn)
  (sch : list action) :
  set_script_timeout V w = Py.Raise e ->
  Py.isinstance e Py.IOError = true ->
  In Sup sch ->
  let s := exec V w timeout sch (init V g) in
  sup V s = Returned RetStop
  /\ wrk V s = NotStarted
  /\ result V s = None
  /\ sup_events V s
     = [SetScriptTimeout (script_timeout timeout);
        Log Error "Lost marionette connection before starting test"].
Proof.
  intros Hraise Hio.
  set (stopped :=
         mk_state V None false (Rebound e) (Returned RetStop) NotStarted
           [SetScriptTimeout (script_timeout timeout);
            Log Error "Lost marionette connection before starting test"]
           []).
  assert (Hfix : forall sch', exec V w timeout sch' stopped = stopped).
  { induction sch' as [|a sch' IH]; [reflexivity|].
    simpl. destruct a; exact IH. }
  induction sch as [|a sch IH]; intros Hin.
  - destruct Hin.
  - destruct a.
    + assert (E : step V w timeout Sup (init V g) = stopped).
      { unfold step, run_step; simpl. rewrite Hraise, Hio. reflexivity. }
      simpl. rewrite E, Hfix. repeat split.
    + destruct Hin as [Hin | Hin]; [discriminate|]. simpl. exact (IH Hin).
    + destruct Hin as [Hin | Hin]; [discriminate|]. simpl. exact (IH Hin).
Qed.

End RunClaims.

Section RunScenarios.

Import MarionetteRun Scenarios.

Example run_times_out :
  run nat (healthy Hangs) (Some 10) TheClass bound_elapses
  = Some (Py.Ok (RetResult (Some timed_out)))
  /\ sup_events nat
       (exec nat (healthy Hangs) (Some 10) bound_elapses (init nat TheClass))
     = [SetScriptTimeout 15000; ThreadStart; Wait (Some 20); timed_out_log].
Proof. split; reflexivity. Qed.

Example run_unbounded_returns_value :
  run nat (healthy (Returns 7%nat)) None TheClass worker_completes
  = Some (Py.Ok (RetResult (Some (Completed 7%nat))))
  /\ sup_events nat
       (exec nat (healthy (Returns 7%nat)) None worker_completes
          (init nat TheClass))
     = [SetScriptTimeout 2147483647; ThreadStart; Wait None].
Proof. split; reflexivity. Qed.

Example run_unbounded_blocks :
  run nat (healthy Hangs) None TheClass bound_elapses = None.
Proof. reflexivity. Qed.



(** C2, as stated, fails: the supervisor has stored the timeout in the
    slot; the worker then stores its tuple, which replaces it; the
    supervisor's [return self.result] hands the worker's tuple, not the
    timeout, to the caller. *)
Lemma run_late_write_replaces_timeout :
  result nat
    (exec nat (healthy (Returns 7%nat)) (Some 10) timeout_recorded
       (init nat TheClass))
  = Some timed_out
  /\ sup nat
       (exec nat (healthy (Returns 7%nat)) (Some 10) timeout_recorded
          (init nat TheClass))
     = AtReturn
  /\ result nat
       (exec nat (healthy (Returns 7%nat)) (Some 10)
          (timeout_recorded ++ late_write) (init nat TheClass))
     = Some (Completed 7%nat)
  /\ run nat (healthy (Returns 7%nat)) (Some 10) TheClass
       (timeout_recorded ++ late_write ++ [Sup])
     = Some (Py.Ok (RetResult (Some (Completed 7%nat)))).
Proof. repeat split. Qed.

Lemma run_single_outcome_witness :
  sup nat
    (exec nat (healthy (Returns 7%nat)) (Some 10) (timeout_recorded ++ [Sup])
       (init nat TheClass))
  = Returned (RetResult (Some timed_out))
  /\ sup nat
       (exec nat (healthy (Returns 7%nat)) (Some 10) (late_write ++ [Wrk])
          (exec nat (healthy (Returns 7%nat)) (Some 10)
             (timeout_recorded ++ [Sup]) (init nat TheClass)))
     = Returned (RetResult (Some timed_out)).
Proof.
  split; [reflexivity|].
  apply (proj1 (proj2 (run_single_outcome nat (healthy (Returns 7%nat))
                         TheClass (Some 10) (timeout_recorded ++ [Sup])))).
  reflexivity.
Defined.

(** C6, as stated, fails: with the connection already dead, [run] hands
    back [Stop], which is not the crash outcome, and [do_test], which
    unpacks what [run] returns, raises a [TypeError] on it. *)
Lemma run_lost_connection_is_not_crash :
  run nat (dead io_error) (Some 10) TheClass [Sup] = Some (Py.Ok RetStop)
  /\ run nat (dead io_error) (Some 10) TheClass [Sup]
     <> Some (Py.Ok (RetResult (Some (Failed "CRASH" DNone))))
  /\ MarionetteTestharnessExecutor.do_test nat nat converter
       (dead io_error) TheClass [Sup] harness a_test
     = Some (Py.Raise
               (Py.mk_exn Py.TypeError
                  (Some (Py.VStr "'object' object is not iterable")))).
Proof.
  split; [reflexivity|]. split; [|reflexivity].
  intros H. discriminate H.
Qed.

Lemma run_lost_connection_witness :
  set_script_timeout nat (dead io_error) = Py.Raise io_error
  /\ Py.isinstance io_error Py.IOError = true
  /\ In Sup [Sup; Wrk; Sup]
  /\ sup nat (exec nat (dead io_error) (Some 10) [Sup; Wrk; Sup]
                (init nat TheClass))
     = Returned RetStop.
Proof.
  split; [reflexivity|]. split; [reflexivity|]. split; [left; reflexivity|].
  apply (run_lost_connection nat (dead io_error) TheClass (Some 10) io_error
           [Sup; Wrk; Sup] eq_refl eq_refl (or_introl eq_refl)).
Defined.

(** C3, where the code departs from it. The remote call raises
    [ValueError("boom")]: the handler builds the message and the formatted
    trace and then stores the exception object itself, so the outcome
    [run] returns, and the result [do_test] builds from it, carry the
    object and not the text. When the [message] attribute is not a string
    ([KeyError(5)]), building the text raises inside the handler, nothing
    is stored, and [run] fails its own assertion. *)
Theorem run_error_detail_is_exception_object :
  _run_except nat TheClass traceback value_error
  = ([], Py.Ok (Failed "ERROR" (DExc value_error)))
  /\ run nat (healthy (Raises value_error)) (Some 10) TheClass
       worker_completes
     = Some (Py.Ok (RetResult (Some (Failed "ERROR" (DExc value_error)))))
  /\ MarionetteTestharnessExecutor.do_test nat nat converter
       (healthy (Raises value_error)) TheClass worker_completes harness a_test
     = Some (Py.Ok (MarionetteTestharnessExecutor.mk_result "ERROR"
                      (DExc value_error), []))
  /\ DExc value_error
     <> DStr ("boom" ++ Py.newline ++ traceback value_error)%string
  /\ worker_outcome nat TheClass (healthy (Raises key_error)) = None
  /\ run nat (healthy (Raises key_error)) (Some 10) TheClass
       worker_completes
     = Some (Py.Raise assertion_error).
Proof.
  repeat split. intros H. discriminate H.
Qed.

End RunScenarios.

(* ================================================================== *)
(** * MarionetteProtocol and MarionetteWebDriverExecutor: the claims *)
(* ================================================================== *)

Section ProtocolClaims.

Import MarionetteProtocol.

Lemma sent_app (a b : list event) : sent (a ++ b) = sent a ++ sent b.
Proof.
  induction a as [|ev a IH]; simpl; [reflexivity|].
  destruct ev; simpl; rewrite ?IH; reflexivity.
Qed.

Lemma logged_app (a b : list event) : logged (a ++ b) = logged a ++ logged b.
Proof.
  induction a as [|ev a IH]; simpl; [reflexivity|].
  destruct ev; simpl; rewrite ?IH; reflexivity.
Qed.

Lemma wait_loop_silent (fuel : nat) (port : nat -> bool)
  (debug_args : option (list string)) (n : nat) :
  sent (fst (wait_loop fuel port debug_args n)) = []
  /\ logged (fst (wait_loop fuel port debug_args n)) = [].
Proof.
  revert n. induction fuel as [|fuel IH]; intros n; simpl.
  - split; reflexivity.
  - destruct (port n || _); simpl.
    + split; reflexivity.
    + specialize (IH (S n)).
      destruct (wait_loop fuel port debug_args (S n)) as [evs r]. exact IH.
Qed.

(** Outside the debugger the port is polled once. *)
Lemma wait_loop_once (fuel : nat) (port : nat -> bool) (n : nat) :
  wait_loop (S fuel) port None n = ([WaitForPort 60], Some (port n)).
Proof. simpl. rewrite orb_true_r. reflexivity. Qed.

(** Under the debugger a port that never opens is polled for ever. *)
Lemma wait_loop_forever (fuel : nat) (args : list string) (n : nat) :
  snd (wait_loop fuel (fun _ => false) (Some args) n) = None.
Proof.
  revert n. induction fuel as [|fuel IH]; intros n; simpl.
  - reflexivity.
  - specialize (IH (S n)).
    destruct (wait_loop fuel (fun _ => false) (Some args) (S n)). exact IH.
Qed.

(** A port that opens at the poll [n + k] ends the loop within [k + 1]
    polls, under the debugger too. *)
Lemma wait_loop_opens (port : nat -> bool)
  (debug_args : option (list string)) (k : nat) :
  forall n fuel,
    port (n + k)%nat = true -> (k < fuel)%nat ->
    exists success, snd (wait_loop fuel port debug_args n) = Some success.
Proof.
  induction k as [|k IH]; intros n fuel Hp Hf.
  - destruct fuel as [|fuel]; [lia|]. simpl.
    rewrite Nat.add_0_r in Hp. rewrite Hp. simpl. eauto.
  - destruct fuel as [|fuel]; [lia|]. simpl.
    destruct (port n || _); simpl; [eauto|].
    destruct (IH (S n) fuel) as [b Hb].
    + rewrite <- Hp. f_equal. lia.
    + lia.
    + destruct (wait_loop fuel port debug_args (S n)) as [evs r].
      simpl in *. eauto.
Qed.

Lemma wait_loop_debug_success (fuel : nat) (port : nat -> bool)
  (args : list string) :
  forall n success,
    snd (wait_loop fuel port (Some args) n) = Some success -> success = true.
Proof.
  induction fuel as [|fuel IH]; intros n success; simpl.
  - discriminate.
  - destruct (port n) eqn:E; simpl.
    + intros H. congruence.
    + specialize (IH (S n) success).
      destruct (wait_loop fuel port (Some args) (S n)) as [evs r]. exact IH.
Qed.

(** What [setup] sends once the poll loop has ended with [success]. *)
Lemma setup_sent (base : list event) (fuel : nat)
  (debug_args : option (list string)) (r : remote) (p : protocol)
  (success : bool) :
  snd (wait_loop fuel (wait_for_port r) debug_args 0) = Some success ->
  exists evs,
    setup base fuel debug_args r p = (mk_protocol (Some Client), evs, true)
    /\ sent evs
       = sent base
         ++ [if success && Py.succeeds (start_session r)
                && Py.succeeds (execute_script r)
             then "init_succeeded" else "init_failed"].
Proof.
  intros Hloop. unfold setup, after_connect.
  pose proof (wait_loop_silent fuel (wait_for_port r) debug_args 0) as [Hs _].
  destruct (wait_loop fuel (wait_for_port r) debug_args 0) as [evp res].
  simpl in Hloop, Hs. subst res.
  destruct success; simpl.
  - destruct (start_session r) as [u|e]; simpl.
    + destruct (navigate r) as [u'|e']; destruct (execute_script r) as [u''|e''];
        simpl; eexists; (split; [reflexivity|]);
        repeat rewrite sent_app; rewrite Hs; simpl;
        rewrite ?app_nil_r; reflexivity.
    + eexists; split; [reflexivity|].
      repeat rewrite sent_app; rewrite Hs; simpl;
        rewrite ?app_nil_r; reflexivity.
  - eexists; split; [reflexivity|].
    repeat rewrite sent_app; rewrite Hs; simpl;
      rewrite ?app_nil_r; reflexivity.
Qed.

(** C4, as the code has it. [MarionetteProtocol.setup] returns, and then
    has sent exactly one message after what the base class's [setup] did,
    whenever it runs outside the debugger or the port opens at some poll:
    [init_succeeded] when the port is open, the session starts and the
    title script runs, [init_failed] otherwise (the port never opens, the
    handshake throws, the post-connect hook throws).
    [MarionetteWebDriverExecutor.setup] sends exactly one message:
    [init_succeeded] when the local server starts, [init_failed] when
    starting it throws. *)
Theorem setup_signals_once (base : list event)
  (debug_args : option (list string)) (r : remote) (p : protocol) :
  (debug_args = None \/ (exists k, wait_for_port r k = true) ->
   exists fuel0, forall fuel, (fuel0 <= fuel)%nat ->
     exists evs,
       setup base fuel debug_args r p = (mk_protocol (Some Client), evs, true)
       /\ sent evs
          = sent base
            ++ [if match debug_args with
                   | None => wait_for_port r 0
                   | Some _ => true
                   end
                   && Py.succeeds (start_session r)
                   && Py.succeeds (execute_script r)
                then "init_succeeded" else "init_failed"])
  /\ (forall start : Py.res unit,
        sent (MarionetteWebDriverExecutor.setup base start)
        = sent base
          ++ [if Py.succeeds start then "init_succeeded"
              else "init_failed"]).
Proof.
  split.
  - intros H. destruct debug_args as [args|].
    + destruct H as [H | [k Hk]]; [discriminate|].
      exists (S k). intros fuel Hf.
      destruct (wait_loop_opens (wait_for_port r) (Some args) k 0 fuel Hk)
        as [success Hs]; [lia|].
      pose proof (wait_loop_debug_success _ _ _ _ _ Hs). subst success.
      apply setup_sent, Hs.
    + exists 1%nat. intros fuel Hf.
      destruct fuel as [|fuel]; [lia|].
      apply setup_sent. rewrite wait_loop_once. reflexivity.
  - intros start. unfold MarionetteWebDriverExecutor.setup.
    rewrite !sent_app. destruct start; reflexivity.
Qed.

Example setup_still_polling :
  setup [] 3 (Some []) Scenarios.never_opens new
  = (mk_protocol (Some Client),
     [Log Debug "Connecting to marionette on port %i";
      Log Debug "Waiting for Marionette connection";
      WaitForPort 60; WaitForPort 60; WaitForPort 60],
     false).
Proof. reflexivity. Qed.

(** C4, as stated, fails: under the debugger, with a port that never
    opens, [setup] never leaves its poll loop and sends no message. *)
Lemma setup_polls_forever_in_debugger :
  ~ (forall (debug_args : option (list string)) (r : remote),
        exists fuel p' evs m,
          setup [] fuel debug_args r new = (p', evs, true)
          /\ sent evs = [m]).
Proof.
  intros H.
  destruct (H (Some []) Scenarios.never_opens) as (fuel & p' & evs & m & E & _).
  unfold setup in E. simpl wait_for_port in E.
  pose proof (wait_loop_forever fuel [] 0) as Hloop.
  destruct (wait_loop fuel (fun _ => false) (Some []) 0) as [evp res].
  simpl in Hloop. subst res. discriminate E.
Qed.

Lemma setup_signals_once_witness :
  exists fuel0, forall fuel, (fuel0 <= fuel)%nat ->
    exists evs,
      setup [] fuel None Scenarios.never_opens new
      = (mk_protocol (Some Client), evs, true)
      /\ sent evs = ["init_failed"].
Proof.
  exact (proj1 (setup_signals_once [] None Scenarios.never_opens new)
           (or_introl eq_refl)).
Defined.

(** C5, as the code has it. The post-connect hook raises exactly when its
    title script raises (a failed navigation is caught and logged inside
    the hook and does not make it raise). When the hook raises, [setup]
    catches the failure, logs it, and sends [init_failed], not
    [init_succeeded]. *)
Theorem setup_reports_hook_failure (base : list event) (fuel : nat)
  (debug_args : option (list string)) (r : remote) (p : protocol)
  (e : Py.exn) :
  snd (wait_loop fuel (wait_for_port r) debug_args 0) = Some true ->
  start_session r = Py.Ok tt ->
  snd (after_connect r (mk_protocol (Some Client))) = Py.Raise e ->
  execute_script r = Py.Raise e
  /\ exists evs,
      setup base fuel debug_args r p = (mk_protocol (Some Client), evs, true)
      /\ sent evs = sent base ++ ["init_failed"]
      /\ In (Warning, "Post-connection steps failed") (logged evs)
      /\ In (Error, "%s") (logged evs).
Proof.
  intros Hloop Hstart Hhook.
  assert (Hscript : execute_script r = Py.Raise e) by exact Hhook.
  split; [exact Hscript|].
  destruct (setup_sent base fuel debug_args r p true Hloop) as (evs & E & Hs).
  exists evs. split; [exact E|].
  rewrite Hstart, Hscript in Hs. simpl in Hs. split; [exact Hs|].
  unfold setup, after_connect in E.
  destruct (wait_loop fuel (wait_for_port r) debug_args 0) as [evp res].
  simpl in Hloop. subst res. rewrite Hstart in E. simpl in E.
  rewrite Hscript in E. simpl in E.
  injection E as E. subst evs.
  repeat rewrite logged_app. simpl.
  split; repeat (apply in_or_app; right); simpl.
  - destruct (navigate r); simpl; tauto.
  - destruct (navigate r); simpl; tauto.
Qed.

(** C5, as stated, fails: the navigation of the hook fails, the failure is
    caught and logged inside the hook, the title script runs, and [setup]
    sends [init_succeeded]. *)
Lemma setup_succeeds_after_failed_navigation :
  Py.succeeds (navigate Scenarios.page_unreachable) = false
  /\ sent (snd (fst (setup [] 1 None Scenarios.page_unreachable new)))
     = ["init_succeeded"]
  /\ logged (snd (fst (setup [] 1 None Scenarios.page_unreachable new)))
     = [(Debug, "Connecting to marionette on port %i");
        (Debug, "Waiting for Marionette connection");
        (Debug, "Starting Marionette session");
        (Debug, "Marionette session started");
        (Debug, "Loading %s");
        (Critical, "Loading initial page %s failed.")].
Proof. repeat split. Qed.

Lemma setup_reports_hook_failure_witness :
  snd (wait_loop 1 (wait_for_port Scenarios.script_refused) None 0) = Some true
  /\ start_session Scenarios.script_refused = Py.Ok tt
  /\ exists evs,
      setup [] 1 None Scenarios.script_refused new
      = (mk_protocol (Some Client), evs, true)
      /\ sent evs = ["init_failed"]
      /\ In (Warning, "Post-connection steps failed") (logged evs)
      /\ In (Error, "%s") (logged evs).
Proof.
  split; [reflexivity|]. split; [reflexivity|].
  exact (proj2 (setup_reports_hook_failure [] 1 None Scenarios.script_refused
                  new _ eq_refl eq_refl eq_refl)).
Defined.

Lemma teardown_present (delete_session : Py.res unit) (p : protocol)
  (h : handle) :
  marionette p = Some h ->
  teardown delete_session p = Py.Ok (mk_protocol None).
Proof.
  intros H. unfold teardown, getattr_marionette, delattr_marionette.
  rewrite H. simpl. destruct (member h delete_session); reflexivity.
Qed.

(** C7, as the code has it. [teardown], on a protocol object that still
    has its [marionette] attribute, never raises: whatever ending the
    session does (no client yet, or any exception of [delete_session]) is
    swallowed, and the attribute is deleted afterwards. *)
Theorem teardown_swallows_and_releases (delete_session : Py.res unit)
  (p : protocol) (h : handle) :
  marionette p = Some h ->
  teardown delete_session p = Py.Ok (mk_protocol None).
Proof.
  intros H. apply (teardown_present delete_session p h H).
Qed.

(** C7, as stated, fails: a protocol object that has been torn down is a
    protocol object, and [teardown] raises on it. *)
Lemma teardown_raises_when_torn_down :
  teardown (Py.Ok tt) new = Py.Ok (mk_protocol None)
  /\ teardown (Py.Ok tt) (mk_protocol None) = Py.Raise attribute_error.
Proof. split; reflexivity. Qed.

Lemma teardown_swallows_and_releases_witness :
  marionette new = Some PyNone
  /\ teardown (Py.Raise Scenarios.io_error) new = Py.Ok (mk_protocol None).
Proof.
  split; [reflexivity|].
  apply (teardown_swallows_and_releases (Py.Raise Scenarios.io_error) new
           PyNone eq_refl).
Defined.

(** C8. [is_alive] is [False] exactly when fetching
    [self.marionette.current_window_handle] raises, and [True] exactly
    when it gives a value; in particular whenever the remote fetch raises
    the answer is [False], whatever the exception, and on a client whose
    fetch gives a value the answer is [True]. *)
Theorem is_alive_reflects_probe (current_window_handle : Py.res string)
  (p : protocol) :
  (is_alive current_window_handle p = false
   <-> exists e,
       (h <- getattr_marionette p ;; member h current_window_handle)
       = Py.Raise e)
  /\ (is_alive current_window_handle p = true
      <-> exists v,
          (h <- getattr_marionette p ;; member h current_window_handle)
          = Py.Ok v)
  /\ (forall e, is_alive (Py.Raise e) p = false)
  /\ (forall v, is_alive (Py.Ok v) (mk_protocol (Some Client)) = true).
Proof.
  unfold is_alive. repeat split.
  - destruct (h <- getattr_marionette p ;; member h current_window_handle);
      [discriminate | eauto].
  - intros [e ->]. reflexivity.
  - destruct (h <- getattr_marionette p ;; member h current_window_handle);
      [eauto | discriminate].
  - intros [v ->]. reflexivity.
  - intros e. unfold getattr_marionette.
    destruct (marionette p) as [[|]|]; reflexivity.
Qed.

Lemma is_alive_reflects_probe_witness :
  is_alive (Py.Raise Scenarios.io_error) (mk_protocol (Some Client)) = false
  /\ is_alive (Py.Ok "window-1") (mk_protocol (Some Client)) = true
  /\ is_alive (Py.Ok "window-1") new = false.
Proof.
  split; [|split].
  - apply (proj1 (proj2 (proj2 (is_alive_reflects_probe
                                  (Py.Ok "window-1")
                                  (mk_protocol (Some Client)))))).
  - apply (proj2 (proj2 (proj2 (is_alive_reflects_probe
                                  (Py.Ok "window-1")
                                  (mk_protocol (Some Client)))))).
  - apply (proj1 (is_alive_reflects_probe (Py.Ok "window-1") new)).
    eexists. reflexivity.
Defined.

(** C10. [teardown] is not idempotent: on an object that has its
    [marionette] attribute a first call returns, and a second call on the
    object it leaves raises an [AttributeError]: the lookup inside the
    guard fails and is swallowed, the [del] outside it fails and is
    not. *)
Theorem teardown_twice_raises (first second : Py.res unit) (p : protocol)
  (h : handle) :
  marionette p = Some h ->
  exists p',
    teardown first p = Py.Ok p'
    /\ (h' <- getattr_marionette p' ;; member h' second)
       = Py.Raise attribute_error
    /\ teardown second p' = Py.Raise attribute_error
    /\ Py.cls attribute_error = Py.AttributeError.
Proof.
  intros H. exists (mk_protocol None).
  split; [apply (teardown_present first p h H)|].
  repeat split.
Qed.

Lemma teardown_twice_raises_witness :
  marionette (mk_protocol (Some Client)) = Some Client
  /\ exists p',
      teardown (Py.Ok tt) (mk_protocol (Some Client)) = Py.Ok p'
      /\ teardown (Py.Ok tt) p' = Py.Raise attribute_error.
Proof.
  split; [reflexivity|].
  destruct (teardown_twice_raises (Py.Ok tt) (Py.Ok tt)
              (mk_protocol (Some Client)) Client eq_refl)
    as (p' & H1 & _ & H2 & _).
  exists p'. split; assumption.
Defined.

End ProtocolClaims.

(* ================================================================== *)
(** * MarionetteRefTestExecutor: the claim *)
(* ================================================================== *)

Section RefTestClaims.

Import Browser MarionetteRefTestExecutor.

Variable ws0 : list nat.

Lemma is_open_In (h : nat) (b : browser) :
  is_open h b = true <-> In h (window_handles b).
Proof.
  unfold is_open. rewrite existsb_exists. split.
  - intros (k & Hk & E). apply Nat.eqb_eq in E. subst. exact Hk.
  - intros H. exists h. split; [exact H | apply Nat.eqb_refl].
Qed.

Lemma filter_drops_last (w : nat) :
  ~ In w ws0 ->
  filter (fun k => negb (Nat.eqb k w)) (ws0 ++ [w]) = ws0.
Proof.
  intros Hw. rewrite filter_app. simpl. rewrite Nat.eqb_refl. simpl.
  rewrite app_nil_r. apply forallb_filter_id.
  apply forallb_forall. intros k Hk.
  apply negb_true_iff, Nat.eqb_neq. intros ->. exact (Hw Hk).
Qed.

Lemma filter_initial :
  filter (fun h => negb (existsb (Nat.eqb h) ws0)) ws0 = [].
Proof.
  assert (G : forall l, incl l ws0 ->
                filter (fun h => negb (existsb (Nat.eqb h) ws0)) l = []).
  { induction l as [|k l IH]; intros Hl; simpl; [reflexivity|].
    assert (E : existsb (Nat.eqb k) ws0 = true).
    { apply existsb_exists. exists k. split.
      - apply Hl. left. reflexivity.
      - apply Nat.eqb_refl. }
    rewrite E. simpl. apply IH. intros j Hj. apply Hl. right. exact Hj. }
  apply G, incl_refl.
Qed.

Lemma tracked_none (b : browser) :
  window_handles b = ws0 -> tracked ws0 b = [].
Proof. intros H. unfold tracked. rewrite H. apply filter_initial. Qed.

Lemma tracked_one (b : browser) (w : nat) :
  window_handles b = ws0 ++ [w] -> ~ In w ws0 -> tracked ws0 b = [w].
Proof.
  intros H Hw. unfold tracked. rewrite H, filter_app, filter_initial. simpl.
  assert (E : existsb (Nat.eqb w) ws0 = false).
  { apply not_true_is_false. intros E. apply existsb_exists in E.
    destruct E as (k & Hk & E). apply Nat.eqb_eq in E. subst. exact (Hw Hk). }
  rewrite E. reflexivity.
Qed.

Lemma last_of_nonempty (b : browser) :
  window_handles b <> [] ->
  exists h, last_window_handle b = Py.Ok h /\ In h (window_handles b).
Proof.
  intros Hne. unfold last_window_handle.
  destruct (rev (window_handles b)) as [|h t] eqn:E.
  - exfalso. apply Hne. rewrite <- (rev_involutive (window_handles b)), E.
    reflexivity.
  - exists h. split; [reflexivity|].
    apply in_rev. rewrite E. left. reflexivity.
Qed.

Lemma close_previous_inv (s : state) :
  ws0 <> [] ->
  window_inv ws0 s ->
  snd (close_previous s) = Py.Ok tt
  /\ window_inv ws0 (fst (close_previous s)).
Proof.
  intros Hne. destruct s as [[cad hw] b]. unfold window_inv, close_previous.
  simpl. intros [Hfresh Hw].
  destruct cad, hw; simpl; try (split; [reflexivity | split; assumption]).
  destruct Hw as (w & Hws & Hcur & Hnew).
  unfold close. rewrite Hcur.
  assert (Hopen : is_open w b = true).
  { apply is_open_In. rewrite Hws. apply in_or_app. right. left. reflexivity. }
  rewrite Hopen, Hws, (filter_drops_last w Hnew).
  destruct (last_of_nonempty (mk_browser ws0 None (fresh b)) Hne)
    as (h & Hlast & Hin).
  rewrite Hlast. unfold switch_to_window.
  rewrite (proj2 (is_open_In h (mk_browser ws0 None (fresh b))) Hin).
  simpl. split; [reflexivity|]. split.
  - rewrite Hws in Hfresh. apply Forall_app in Hfresh. apply Hfresh.
  - split; [reflexivity|]. exists h. split; [reflexivity | exact Hin].
Qed.

Lemma open_window_inv (s : state) :
  window_inv ws0 s ->
  snd (open_window s) = Py.Ok tt
  /\ window_inv ws0 (fst (open_window s))
  /\ has_window (fst (fst (open_window s))) = true.
Proof.
  destruct s as [[cad hw] b]. unfold window_inv, open_window.
  simpl. intros [Hfresh Hw].
  destruct hw; simpl; [repeat split; assumption|].
  destruct Hw as (Hws & h & Hcur & Hin).
  unfold execute_reftest_script. rewrite Hcur.
  rewrite (proj2 (is_open_In h b)) by (rewrite Hws; exact Hin).
  unfold last_window_handle. simpl. rewrite rev_unit.
  unfold switch_to_window.
  match goal with
  | |- context [is_open ?k ?b'] =>
      rewrite (proj2 (is_open_In k b'))
        by (simpl; apply in_or_app; right; left; reflexivity)
  end.
  simpl. split; [reflexivity|]. split; [|reflexivity]. split.
  - apply Forall_app. split.
    + eapply Forall_impl; [|exact Hfresh]. simpl. intros; lia.
    + constructor; [lia | constructor].
  - exists (fresh b). rewrite Hws. repeat split.
    intros Hbad. rewrite <- Hws in Hbad.
    rewrite Forall_forall in Hfresh. specialize (Hfresh _ Hbad). lia.
Qed.

Lemma do_test_inv (R : Type) (o : Py.res R) (s : state) :
  ws0 <> [] ->
  window_inv ws0 s ->
  snd (do_test R o s) = o
  /\ window_inv ws0 (fst (do_test R o s))
  /\ Forall (window_inv ws0) (do_test_states s).
Proof.
  intros Hne Hs. unfold do_test, do_test_states.
  destruct (close_previous_inv s Hne Hs) as [E1 H1].
  destruct (close_previous s) as [s1 r1]. simpl in E1, H1. subst r1.
  cbv zeta. simpl.
  destruct (open_window_inv s1 H1) as (E2 & H2 & _).
  destruct (open_window s1) as [s2 r2]. simpl in E2, H2. subst r2.
  simpl. split; [reflexivity|]. split; [exact H2|].
  constructor; [exact H1|]. constructor; [exact H2 | constructor].
Qed.

Lemma window_inv_claim (s : state) :
  window_inv ws0 s ->
  (List.length (tracked ws0 (snd s)) <= 1)%nat
  /\ (has_window (fst s) = false <-> tracked ws0 (snd s) = [])
  /\ (has_window (fst s) = true ->
      exists w, tracked ws0 (snd s) = [w]
                /\ current (snd s) = Some w
                /\ In w (window_handles (snd s))).
Proof.
  intros [_ H]. destruct (has_window (fst s)).
  - destruct H as (w & Hws & Hcur & Hnew).
    rewrite (tracked_one (snd s) w Hws Hnew). simpl.
    split; [lia|]. split; [split; discriminate|].
    intros _. exists w. repeat split; [exact Hcur|].
    rewrite Hws. apply in_or_app. right. left. reflexivity.
  - destruct H as (Hws & _).
    rewrite (tracked_none (snd s) Hws). simpl.
    split; [lia|]. split; [split; reflexivity | discriminate].
Qed.

Lemma do_tests_inv (R : Type) (outcomes : list (Py.res R)) :
  ws0 <> [] ->
  forall s,
    window_inv ws0 s ->
    snd (do_tests R outcomes s) = outcomes
    /\ window_inv ws0 (fst (do_tests R outcomes s))
    /\ Forall (window_inv ws0) (visited R outcomes s).
Proof.
  intros Hne. induction outcomes as [|o rest IH]; intros s Hs; simpl.
  - split; [reflexivity|]. split; [exact Hs|].
    constructor; [exact Hs | constructor].
  - destruct (do_test_inv R o s Hne Hs) as (E & H1 & Hst).
    destruct (do_test R o s) as [s1 r]. simpl in E, H1. subst r.
    destruct (IH s1 H1) as (E2 & H2 & Hv).
    destruct (do_tests R rest s1) as [s2 rs]. simpl in E2, H2. subst rs.
    simpl. split; [reflexivity|]. split; [exact H2|].
    constructor; [exact Hs|]. apply Forall_app. split; assumption.
Qed.

(** C9. An executor that starts without a window, on a browser whose
    current context is one of its open windows: through every sequence of
    [do_test] calls, no window operation raises (each call gives what the
    comparison logic gave), and in every state between calls and between
    the two blocks of a call at most one window opened by the executor is
    open, [has_window] is false exactly when none is, and when
    [has_window] is true that window exists and is the current context.
    This holds for either value of [close_after_done]. *)
Theorem do_test_tracks_one_window (R : Type) (outcomes : list (Py.res R))
  (x0 : executor) (b0 : browser) (h0 : nat) :
  window_handles b0 = ws0 ->
  has_window x0 = false ->
  current b0 = Some h0 ->
  In h0 ws0 ->
  Forall (fun h => (h < fresh b0)%nat) ws0 ->
  snd (do_tests R outcomes (x0, b0)) = outcomes
  /\ Forall
       (fun s =>
          (List.length (tracked ws0 (snd s)) <= 1)%nat
          /\ (has_window (fst s) = false <-> tracked ws0 (snd s) = [])
          /\ (has_window (fst s) = true ->
              exists w, tracked ws0 (snd s) = [w]
                        /\ current (snd s) = Some w
                        /\ In w (window_handles (snd s))))
       (visited R outcomes (x0, b0)).
Proof.
  intros Hws Hhw Hcur Hin Hfresh.
  assert (Hne : ws0 <> []) by (intros E; rewrite E in Hin; exact Hin).
  assert (H0 : window_inv ws0 (x0, b0)).
  { unfold window_inv. simpl. rewrite Hhw, Hws. split; [exact Hfresh|].
    split; [reflexivity|]. exists h0. split; assumption. }
  destruct (do_tests_inv R outcomes Hne (x0, b0) H0) as (E & _ & Hv).
  split; [exact E|].
  eapply Forall_impl; [|exact Hv]. intros s. apply window_inv_claim.
Qed.

End RefTestClaims.

Example do_tests_reopens_window :
  MarionetteRefTestExecutor.do_tests nat [Py.Ok 1%nat; Py.Ok 2%nat]
    (MarionetteRefTestExecutor.mk_executor true false, Scenarios.one_window)
  = ((MarionetteRefTestExecutor.mk_executor true true,
      Browser.mk_browser [0%nat; 2%nat] (Some 2%nat) 3),
     [Py.Ok 1%nat; Py.Ok 2%nat]).
Proof. reflexivity. Qed.

Lemma do_test_tracks_one_window_witness :
  Browser.window_handles Scenarios.one_window = [0%nat]
  /\ snd (MarionetteRefTestExecutor.do_tests nat
            [Py.Ok 1%nat; Py.Raise Browser.no_such_window; Py.Ok 2%nat]
            (MarionetteRefTestExecutor.mk_executor true false,
             Scenarios.one_window))
     = [Py.Ok 1%nat; Py.Raise Browser.no_such_window; Py.Ok 2%nat].
Proof.
  split; [reflexivity|].
  apply (do_test_tracks_one_window [0%nat] nat
           [Py.Ok 1%nat; Py.Raise Browser.no_such_window; Py.Ok 2%nat]
           (MarionetteRefTestExecutor.mk_executor true false)
           Scenarios.one_window 0%nat eq_refl eq_refl eq_refl
           (or_introl eq_refl)).
  repeat constructor.
Defined.

(* ================================================================== *)
(** * MarionetteRun: further properties *)
(* ================================================================== *)

Section RunProperties.

Import MarionetteRun.

Variable V : Type.
Variable w : world V.
Variable g : binding.

(** X1. A call of [run] raises in two cases only: [set_script_timeout]
    raised something that is not an [IOError], which [run] lets through,
    or the worker's own handler raised while it built the error text, so
    that the flag was set with nothing stored and [assert not flag]
    failed. *)
Theorem run_raises_provenance (timeout : option Z) (sch : list action)
  (e : Py.exn) :
  run V w timeout g sch = Some (Py.Raise e) ->
  set_script_timeout V w = Py.Raise e /\ Py.isinstance e Py.IOError = false
  \/ e = assertion_error
     /\ exists e' e'',
       func V w = Raises e'
       /\ snd (_run_except V g (format_exc V w) e') = Py.Raise e''.
Proof.
  unfold run.
  pose proof (inv_exec V w timeout g sch _ (inv_init V w g)) as Hi.
  pose proof (inv_assert_exec V w timeout g sch _ (inv_init V w g)
                (inv_assert_init V w g)) as Ha.
  revert Hi Ha. generalize (exec V w timeout sch (init V g)).
  intros s Hi Ha H.
  destruct (sup V s) as [| | | | | | | | r | e0] eqn:Es; try discriminate.
  assert (e0 = e) by congruence. subst e0.
  destruct Ha as (_ & _ & A3 & A4).
  destruct Hi as (I1 & _ & _ & _ & _ & _ & IH & _ & _ & _ & _ & _ & _ & I10).
  destruct (A3 e Es) as [Hset | [He Hw]].
  - left. split; [exact Hset | exact (A4 e Es)].
  - destruct (I10 e Es) as [Hset | [_ Hflag]].
    + left. split; [exact Hset | exact (A4 e Es)].
    + right. split; [exact He|].
      unfold worker_outcome in Hw.
      destruct (func V w) as [v | e' |] eqn:F.
      * discriminate.
      * destruct (snd (_run_except V g (format_exc V w) e')) as [o | e'']
          eqn:Ex; [discriminate|].
        exists e', e''. split; [reflexivity | exact Ex].
      * exfalso. rewrite I1 in Hflag.
        destruct (IH eq_refl) as [E | E]; rewrite E in Hflag; discriminate.
Qed.

(** X2. When the worker's handler raises and the bound of [wait] does not
    run out before the worker is through, [run] fails its assertion: the
    flag is set, the slot is empty. *)
Theorem run_handler_failure_fails_assertion (timeout : option Z)
  (sch : list action) :
  set_script_timeout V w = Py.Ok tt ->
  func V w <> Hangs ->
  worker_outcome V g w = None ->
  timeout = None \/ ~ In Elapse sch ->
  run V w timeout g (sch ++ worker_completes)
  = Some (Py.Raise assertion_error).
Proof.
  intros Hok Hfun Hw Hq. unfold run.
  rewrite (exec_app V w timeout sch worker_completes).
  pose proof (inv_exec V w timeout g sch _ (inv_init V w g)) as Hi.
  pose proof (inv_unbounded_exec_quiet V w timeout g sch _ Hq
                (inv_init V w g) (inv_unbounded_init V w g)) as Hu.
  pose proof (inv_events_exec V w timeout sch _ Hok
                (inv_events_init V timeout g)) as He.
  revert Hi Hu He. generalize (exec V w timeout sch (init V g)).
  intros s Hi Hu He.
  pose proof (worker_completes_finishes V w timeout g s Hfun Hi Hu) as F.
  pose proof (inv_exec V w timeout g worker_completes s Hi) as Hi'.
  assert (Hq' : timeout = None \/ ~ In Elapse worker_completes).
  { right. unfold worker_completes. simpl. intuition discriminate. }
  pose proof (inv_unbounded_exec_quiet V w timeout g worker_completes s Hq'
                Hi Hu) as Hu'.
  pose proof (inv_events_exec V w timeout worker_completes s Hok He) as He'.
  revert F Hi' Hu' He'.
  generalize (exec V w timeout worker_completes s). intros s' F Hi' Hu' He'.
  unfold finished in F. unfold inv_events in He'. destruct Hu' as [_ U].
  destruct Hi' as (_ & _ & _ & _ & _ & _ & _ & _ & _ & _ & _ & _ & _ & I10).
  destruct (sup V s') as [| | | | | | | | [|x] | e] eqn:Es; try discriminate.
  - contradiction.
  - destruct U as (U1 & U2 & _). congruence.
  - destruct (I10 e eq_refl) as [Hset | [-> _]]; [congruence | reflexivity].
Qed.

(** X3. When [set_script_timeout] raises something that is not an
    [IOError] (an [InvalidResponseException], say, which the [except]
    clause names but does not catch), [run] lets it through to its caller:
    it has made that one remote call, left the class name as it was,
    started no worker and stored nothing. *)
Theorem run_setup_error_propagates (timeout : option Z) (e : Py.exn)
  (sch : list action) :
  set_script_timeout V w = Py.Raise e ->
  Py.isinstance e Py.IOError = false ->
  In Sup sch ->
  let s := exec V w timeout sch (init V g) in
  run V w timeout g sch = Some (Py.Raise e)
  /\ wrk V s = NotStarted
  /\ result V s = None
  /\ errors_InvalidResponseException V s = g
  /\ sup_events V s = [SetScriptTimeout (script_timeout timeout)]
  /\ wrk_events V s = [].
Proof.
  intros Hraise Hio Hin s. unfold run. fold s. unfold s.
  rewrite (set_timeout_raises_exec V w timeout g e sch Hraise), Hio.
  assert (E : existsb (fun a => match a with Sup => true | _ => false end) sch
              = true).
  { apply existsb_exists. exists Sup. split; [exact Hin | reflexivity]. }
  rewrite E. repeat split.
Qed.

(** X4. The clause [except IOError, marionette.errors.InvalidResponseException]
    rebinds the name it mentions: after a call of [run] that lost its
    connection, the name denotes the caught object. From then on an
    [InvalidResponseException] raised by a remote call is no longer
    classified as a crash by [_run] but as an error; before, it was a
    crash. *)
Theorem run_lost_connection_rebinds_class (timeout : option Z) (e : Py.exn)
  (sch : list action) (w' : world V) (e2 : Py.exn) (m : string) :
  set_script_timeout V w = Py.Raise e ->
  Py.isinstance e Py.IOError = true ->
  In Sup sch ->
  func V w' = Raises e2 ->
  Py.cls e2 = Py.InvalidResponseException ->
  Py.getattr_message e2 = Py.VStr m ->
  let g' :=
    errors_InvalidResponseException V (exec V w timeout sch (init V g)) in
  g' = Rebound e
  /\ worker_outcome V TheClass w' = Some (Failed "CRASH" DNone)
  /\ worker_outcome V g' w' = Some (Failed "ERROR" (DExc e2)).
Proof.
  intros Hraise Hio Hin Hf Hc Hm g'. unfold g'.
  rewrite (set_timeout_raises_exec V w timeout g e sch Hraise), Hio.
  assert (E : existsb (fun a => match a with Sup => true | _ => false end) sch
              = true).
  { apply existsb_exists. exists Sup. split; [exact Hin | reflexivity]. }
  rewrite E. simpl. split; [reflexivity|].
  unfold worker_outcome. rewrite Hf.
  rewrite !_run_except_classes.
  unfold matches_crash, Py.isinstance. rewrite Hc, Hm. simpl.
  split; reflexivity.
Qed.

(** X5. While the bound of [wait] has not run out, a call with a deadline
    behaves as one without: the slot holds nothing or what the worker
    stored, [run] returns nothing but what the worker stored, and it
    returns it once the worker is through. No timeout is reported
    early. *)
Theorem run_returns_worker_outcome_before_deadline (d : Z)
  (sch : list action) :
  set_script_timeout V w = Py.Ok tt ->
  ~ In Elapse sch ->
  let s := exec V w (Some d) sch (init V g) in
  (result V s = None \/ result V s = worker_outcome V g w)
  /\ (forall r, sup V s = Returned r ->
      exists o, worker_outcome V g w = Some o /\ r = RetResult (Some o))
  /\ (forall o, worker_outcome V g w = Some o ->
      sup V (exec V w (Some d) worker_completes s)
      = Returned (RetResult (Some o))).
Proof.
  intros Hok Hq s.
  assert (Hq' : Some d = None \/ ~ In Elapse sch) by (right; exact Hq).
  pose proof (inv_exec V w (Some d) g sch _ (inv_init V w g)) as Hi.
  pose proof (inv_unbounded_exec_quiet V w (Some d) g sch _ Hq'
                (inv_init V w g) (inv_unbounded_init V w g)) as Hu.
  pose proof (inv_events_exec V w (Some d) sch _ Hok
                (inv_events_init V (Some d) g)) as He.
  fold s in Hi, Hu, He. revert Hi Hu He. generalize s. clear s.
  intros s Hi Hu He.
  split; [|split].
  - destruct Hu as [U _]. rewrite U.
    destruct (recorded V g w s); [right | left]; reflexivity.
  - intros r Hr. destruct Hu as [_ U]. unfold inv_events in He.
    rewrite Hr in U, He.
    destruct r as [|x]; [contradiction|].
    destruct U as (-> & U & _).
    destruct (worker_outcome V g w) as [o|]; [|congruence].
    exists o. split; reflexivity.
  - intros o Ho.
    apply (worker_completes_returns_quiet V w (Some d) g o s); assumption.
Qed.

(** X6. When the remote call never returns and the bound of [wait] does
    not run out (there is none under the debugger), [run] never returns:
    nothing else ends the supervisor's wait. *)
Theorem run_blocks_while_func_hangs (timeout : option Z)
  (sch : list action) :
  set_script_timeout V w = Py.Ok tt ->
  func V w = Hangs ->
  timeout = None \/ ~ In Elapse sch ->
  run V w timeout g sch = None.
Proof.
  intros Hok Hf Hq. unfold run.
  pose proof (hangs_not_finished V w g timeout sch Hok Hf Hq) as F.
  unfold finished in F.
  destruct (sup V (exec V w timeout sch (init V g)));
    try reflexivity; discriminate.
Qed.

(** X7. Where what [run] returns comes from. [Stop] comes from an
    [IOError] of [set_script_timeout]. A success carries the very value
    [func] returned. A failure is the timeout (with no detail), a crash
    (with no detail; [func] raised one of the connection errors), or an
    error whose detail is the very exception [func] raised. The slot
    handed back is never empty. *)
Theorem run_result_provenance (timeout : option Z) (sch : list action)
  (r : ret V) :
  run V w timeout g sch = Some (Py.Ok r) ->
  match r with
  | RetStop =>
      exists e, set_script_timeout V w = Py.Raise e
                /\ Py.isinstance e Py.IOError = true
  | RetResult None => False
  | RetResult (Some (Completed v)) => func V w = Returns v
  | RetResult (Some (Failed st d)) =>
      st = "EXTERNAL-TIMEOUT" /\ d = DNone
      \/ (st = "CRASH" /\ d = DNone
          /\ exists e, func V w = Raises e /\ matches_crash g e = true)
      \/ (st = "ERROR"
          /\ exists e, func V w = Raises e /\ d = DExc e
                       /\ matches_crash g e = false
                       /\ Py.isinstance e Py.ScriptTimeoutException = false)
  end.
Proof.
  unfold run. intros H.
  apply (returned_provenance V w g timeout sch).
  destruct (sup V (exec V w timeout sch (init V g))); try discriminate.
  congruence.
Qed.

End RunProperties.
Section RunPropertiesScenarios.

Import MarionetteRun Scenarios.

Lemma run_raises_provenance_witness :
  run nat (failing key_error) (Some 10) TheClass worker_completes
  = Some (Py.Raise assertion_error)
  /\ (set_script_timeout nat (failing key_error) = Py.Raise assertion_error
      /\ Py.isinstance assertion_error Py.IOError = false
      \/ assertion_error = assertion_error
         /\ exists e' e'',
           func nat (failing key_error) = Raises e'
           /\ snd (_run_except nat TheClass
                     (format_exc nat (failing key_error)) e')
              = Py.Raise e'').
Proof.
  split; [reflexivity|].
  apply (run_raises_provenance nat (failing key_error) TheClass (Some 10)
           worker_completes assertion_error).
  reflexivity.
Defined.

Lemma run_handler_failure_fails_assertion_witness :
  set_script_timeout nat (failing key_error) = Py.Ok tt
  /\ func nat (failing key_error) <> Hangs
  /\ worker_outcome nat TheClass (failing key_error) = None
  /\ ~ In Elapse [Sup; Sup; Wrk]
  /\ run nat (failing key_error) (Some 10) TheClass
       ([Sup; Sup; Wrk] ++ worker_completes)
     = Some (Py.Raise assertion_error).
Proof.
  assert (Hf : func nat (failing key_error) <> Hangs)
    by (intros H; discriminate H).
  assert (Hq : ~ In Elapse [Sup; Sup; Wrk])
    by (intros [H | [H | [H | []]]]; discriminate H).
  split; [reflexivity|]. split; [exact Hf|]. split; [reflexivity|].
  split; [exact Hq|].
  apply (run_handler_failure_fails_assertion nat (failing key_error) TheClass
           (Some 10) [Sup; Sup; Wrk] eq_refl Hf eq_refl (or_intror Hq)).
Defined.

Lemma run_setup_error_propagates_witness :
  set_script_timeout nat (dead invalid_response) = Py.Raise invalid_response
  /\ Py.isinstance invalid_response Py.IOError = false
  /\ In Sup [Wrk; Sup; Wrk]
  /\ run nat (dead invalid_response) (Some 10) TheClass [Wrk; Sup; Wrk]
     = Some (Py.Raise invalid_response).
Proof.
  split; [reflexivity|]. split; [reflexivity|].
  split; [right; left; reflexivity|].
  apply (run_setup_error_propagates nat (dead invalid_response) TheClass
           (Some 10) invalid_response [Wrk; Sup; Wrk] eq_refl eq_refl
           (or_intror (or_introl eq_refl))).
Defined.

Lemma run_lost_connection_rebinds_class_witness :
  set_script_timeout nat (dead io_error) = Py.Raise io_error
  /\ Py.isinstance io_error Py.IOError = true
  /\ In Sup [Sup]
  /\ func nat (failing invalid_response) = Raises invalid_response
  /\ Py.cls invalid_response = Py.InvalidResponseException
  /\ Py.getattr_message invalid_response
     = Py.VStr "Could not decode response"
  /\ worker_outcome nat
       (errors_InvalidResponseException nat
          (exec nat (dead io_error) (Some 10) [Sup] (init nat TheClass)))
       (failing invalid_response)
     = Some (Failed "ERROR" (DExc invalid_response)).
Proof.
  repeat (split; [reflexivity || (left; reflexivity)|]).
  apply (run_lost_connection_rebinds_class nat (dead io_error) TheClass
           (Some 10) io_error [Sup] (failing invalid_response)
           invalid_response "Could not decode response"
           eq_refl eq_refl (or_introl eq_refl) eq_refl eq_refl eq_refl).
Defined.

Lemma run_returns_worker_outcome_before_deadline_witness :
  set_script_timeout nat (healthy (Returns 7%nat)) = Py.Ok tt
  /\ ~ In Elapse [Sup; Sup; Wrk]
  /\ sup nat
       (exec nat (healthy (Returns 7%nat)) (Some 10) worker_completes
          (exec nat (healthy (Returns 7%nat)) (Some 10) [Sup; Sup; Wrk]
             (init nat TheClass)))
     = Returned (RetResult (Some (Completed 7%nat))).
Proof.
  assert (Hq : ~ In Elapse [Sup; Sup; Wrk])
    by (intros [H | [H | [H | []]]]; discriminate H).
  split; [reflexivity|]. split; [exact Hq|].
  apply (proj2 (proj2 (run_returns_worker_outcome_before_deadline nat
                         (healthy (Returns 7%nat)) TheClass 10
                         [Sup; Sup; Wrk] eq_refl Hq))).
  reflexivity.
Defined.

Lemma run_blocks_while_func_hangs_witness :
  set_script_timeout nat (healthy Hangs) = Py.Ok tt
  /\ func nat (healthy Hangs) = Hangs
  /\ run nat (healthy Hangs) None TheClass (bound_elapses ++ worker_completes)
     = None.
Proof.
  split; [reflexivity|]. split; [reflexivity|].
  apply (run_blocks_while_func_hangs nat (healthy Hangs) TheClass None
           (bound_elapses ++ worker_completes) eq_refl eq_refl
           (or_introl eq_refl)).
Defined.

Lemma run_result_provenance_witness :
  run nat (failing value_error) (Some 10) TheClass worker_completes
  = Some (Py.Ok (RetResult (Some (Failed "ERROR" (DExc value_error)))))
  /\ ("ERROR" = "EXTERNAL-TIMEOUT" /\ DExc value_error = DNone
      \/ ("ERROR" = "CRASH" /\ DExc value_error = DNone
          /\ exists e, func nat (failing value_error) = Raises e
                       /\ matches_crash TheClass e = true)
      \/ ("ERROR" = "ERROR"
          /\ exists e, func nat (failing value_error) = Raises e
                       /\ DExc value_error = DExc e
                       /\ matches_crash TheClass e = false
                       /\ Py.isinstance e Py.ScriptTimeoutException = false)).
Proof.
  split; [reflexivity|].
  apply (run_result_provenance nat (failing value_error) TheClass (Some 10)
           worker_completes
           (RetResult (Some (Failed "ERROR" (DExc value_error))))).
  reflexivity.
Defined.

End RunPropertiesScenarios.

(* ================================================================== *)
(** * MarionetteTestharnessExecutor: further properties *)
(* ================================================================== *)

Section TestharnessProperties.

Import MarionetteRun MarionetteTestharnessExecutor.

Variables V Sub : Type.
Variable convert_result : test -> V -> Py.res (harness_result * list Sub).
Variable http_server_url : string.
Variable window_id : string.
Variable urljoin : string -> string -> string.
Variable render : substitution -> Py.res string.

Lemma str_read (z : Z) : NilZero.int_of_string (str z) = Some (Z.to_int z).
Proof.
  unfold str. apply NilZero.isi.
  - destruct z; simpl; try discriminate.
    intros H. injection H as H. exact (Unsigned.to_uint_nonnil _ H).
  - destruct z; simpl; try discriminate.
    intros H. injection H as H. exact (Unsigned.to_uint_nonnil _ H).
Qed.

Lemma str_inj (z z' : Z) : str z = str z' -> z = z'.
Proof.
  intros H.
  assert (E : Some (Z.to_int z) = Some (Z.to_int z')).
  { rewrite <- !str_read, H. reflexivity. }
  injection E as E.
  rewrite <- (DecimalZ.of_to z), <- (DecimalZ.of_to z'), E. reflexivity.
Qed.

Lemma str_not_null (z : Z) : str z <> "null".
Proof.
  intros H. pose proof (str_read z) as R. rewrite H in R. discriminate R.
Qed.

(** X8. The timeout text handed to the test script determines the
    deadline: it is ["null"] exactly when there is none, and two deadlines
    with the same text are the same. In the mapping [do_test] has
    [do_testharness] build, the text is ["null"], and [explicit_timeout]
    is true, exactly under the debugger. *)
Theorem timeout_ms_determines_deadline (a b : option Z) (x : executor)
  (t : test) :
  (timeout_ms a = "null" <-> a = None)
  /\ (timeout_ms a = timeout_ms b -> a = b)
  /\ let m := substitution_of http_server_url window_id urljoin x (url t)
                (do_test_timeout x t) in
     (s_timeout m = "null" <-> debug_args x <> None)
     /\ (s_explicit_timeout m = true <-> debug_args x <> None).
Proof.
  split; [|split].
  - destruct a as [z|]; simpl; split; intros H.
    + exfalso. exact (str_not_null _ H).
    + discriminate.
    + reflexivity.
    + reflexivity.
  - destruct a as [z|], b as [z'|]; simpl; intros H.
    + apply str_inj in H. f_equal. lia.
    + exfalso. exact (str_not_null _ H).
    + exfalso. symmetry in H. exact (str_not_null _ H).
    + reflexivity.
  - unfold substitution_of, do_test_timeout. simpl.
    destruct (debug_args x) as [args|]; simpl; split; split; intros H;
      try reflexivity; try discriminate; try congruence.
    exfalso. exact (str_not_null _ H).
Qed.

(** X9. Outside the debugger the three timeouts of a test nest: with
    [T = test.timeout * timeout_multiplier * 1000] the page is told [T]
    milliseconds, the remote script timeout is [T + 5000] milliseconds,
    and the supervisor waits [T + 10000] milliseconds for the worker. *)
Theorem do_test_timeouts_nest (x : executor) (t : test) :
  debug_args x = None ->
  let T := timeout t * timeout_multiplier x * 1000 in
  let deadline := do_test_timeout x t in
  s_timeout (substitution_of http_server_url window_id urljoin x (url t)
               deadline)
  = str T
  /\ script_timeout deadline = T + 5000
  /\ exists bound,
      wait_timeout deadline = Some bound /\ bound * 1000 = T + 10000.
Proof.
  intros Hd T deadline. unfold deadline, T, do_test_timeout. rewrite Hd.
  simpl. unfold extra_timeout. split; [reflexivity|]. split; [ring|].
  eexists. split; [reflexivity | ring].
Qed.

(** X10. The remote calls of [do_testharness]. The window-closing script
    is run exactly when [close_after_done] is set, and then first. The
    test script is run exactly when the template could be instantiated
    and the closing script, if run, returned; it is the template
    instantiated with the mapping, and it is the last call. The call
    returns a value only if the test script returned that value. *)
Theorem do_testharness_calls (x : executor) (r : script_remote V)
  (test_url : string) (deadline : option Z) :
  let m := substitution_of http_server_url window_id urljoin x test_url
             deadline in
  let calls := fst (do_testharness V http_server_url window_id urljoin render
                      x r test_url deadline) in
  let outcome := snd (do_testharness V http_server_url window_id urljoin
                        render x r test_url deadline) in
  (In CloseWindowScript calls <-> close_after_done x = true)
  /\ (close_after_done x = true -> hd_error calls = Some CloseWindowScript)
  /\ (forall script,
        In (AsyncScript script) calls
        <-> render m = Py.Ok script
            /\ (close_after_done x = false
                \/ exists u, close_window_script V r = Returns u))
  /\ (forall script,
        In (AsyncScript script) calls -> last calls CloseWindowScript
                                         = AsyncScript script)
  /\ (forall v, outcome = Returns v ->
        exists script,
          render m = Py.Ok script
          /\ execute_async_script V r script = Returns v).
Proof.
  intros m calls outcome. unfold calls, outcome, do_testharness. fold m.
  destruct (close_after_done x); destruct (render m) as [script|e];
    try destruct (close_window_script V r) as [u|e'|]; simpl;
    repeat split; intros;
    repeat match goal with
           | H : _ \/ _ |- _ => destruct H
           | H : _ /\ _ |- _ => destruct H
           | H : exists _, _ |- _ => destruct H
           | H : False |- _ => destruct H
           end;
    try discriminate; try congruence; eauto;
    try (match goal with
         | H : Py.Ok _ = Py.Ok _ |- _ => injection H as H; subst
         end; auto).
Qed.

End TestharnessProperties.

Section DoTestProperties.

Import MarionetteRun MarionetteTestharnessExecutor.

Variables V Sub : Type.
Variable convert_result : test -> V -> Py.res (harness_result * list Sub).
Variable http_server_url : string.
Variable window_id : string.
Variable urljoin : string -> string -> string.
Variable render : substitution -> Py.res string.

(** X11. Where the result of [do_test] comes from. A result is either
    what the converter made of the very value the remote call returned,
    or a failure with no subtest results whose status is
    [EXTERNAL-TIMEOUT] or [CRASH], with no message, or [ERROR], with the
    exception the remote call raised as its message. *)
Theorem do_test_result_shape (w : world V) (g : binding)
  (sch : list action) (x : executor) (t : test) (hr : harness_result)
  (subs : list Sub) :
  do_test V Sub convert_result w g sch x t = Some (Py.Ok (hr, subs)) ->
  (exists v, func V w = Returns v /\ convert_result t v = Py.Ok (hr, subs))
  \/ subs = []
     /\ (status hr = "EXTERNAL-TIMEOUT" /\ message hr = DNone
         \/ status hr = "CRASH" /\ message hr = DNone
         \/ status hr = "ERROR"
            /\ exists e, func V w = Raises e /\ message hr = DExc e).
Proof.
  unfold do_test, run. intros H.
  pose proof (returned_provenance V w g (do_test_timeout x t) sch) as P.
  destruct (sup V (exec V w (do_test_timeout x t) sch (init V g)))
    as [| | | | | | | | r | e]; try discriminate.
  specialize (P r eq_refl).
  destruct r as [|[[v | st d]|]]; simpl in H.
  - discriminate.
  - left. exists v. split; [exact P | congruence].
  - right. assert (E : (mk_result st d, @nil Sub) = (hr, subs)) by congruence.
    injection E as <- <-. simpl. split; [reflexivity|].
    destruct P as [[-> ->] | [(-> & -> & _) | (-> & e & Hf & -> & _)]].
    + left. split; reflexivity.
    + right. left. split; reflexivity.
    + right. right. split; [reflexivity|]. exists e. split; [exact Hf|reflexivity].
  - contradiction.
Qed.

(** X12. A test whose remote calls never come back. Outside the debugger,
    once the bound of the supervisor's wait has run out, [do_test] gives
    an [EXTERNAL-TIMEOUT] result with no message and no subtest results;
    under the debugger [do_test] never returns. *)
Theorem do_test_hanging_script (r : script_remote V)
  (fmt : Py.exn -> string) (x : executor) (t : test) (g : binding)
  (sch : list action) :
  let w := do_test_world V http_server_url window_id urljoin render
             (Py.Ok tt) r fmt x t in
  func V w = Hangs ->
  match debug_args x with
  | None =>
      do_test V Sub convert_result w g (sch ++ bound_elapses) x t
      = Some (Py.Ok (mk_result "EXTERNAL-TIMEOUT" DNone, []))
  | Some _ => do_test V Sub convert_result w g sch x t = None
  end.
Proof.
  intros w Hf. unfold do_test, run, do_test_timeout.
  destruct (debug_args x) as [args|].
  - pose proof (hangs_not_finished V w g None sch eq_refl Hf
                  (or_introl eq_refl)) as F.
    unfold finished in F.
    destruct (sup V (exec V w None sch (init V g))); try reflexivity;
      discriminate.
  - set (d := timeout t * timeout_multiplier x).
    rewrite (exec_app V w (Some d) sch bound_elapses).
    rewrite (bound_elapses_times_out V w (Some d) g d _ eq_refl eq_refl Hf
               (reach_inv V w g (Some d) sch)
               (reach_inv_events V w g (Some d) sch eq_refl)).
    reflexivity.
Qed.

End DoTestProperties.

Section DoTestScenarios.

Import MarionetteRun MarionetteTestharnessExecutor Scenarios.

Lemma do_test_timeouts_nest_witness :
  debug_args harness = None
  /\ s_timeout (substitution_of "http://web-platform.test:8000" "w-1" join
                  harness (url a_test) (do_test_timeout harness a_test))
     = "10000"
  /\ script_timeout (do_test_timeout harness a_test) = 15000
  /\ exists bound,
      wait_timeout (do_test_timeout harness a_test) = Some bound
      /\ bound * 1000 = 20000.
Proof.
  split; [reflexivity|].
  apply (do_test_timeouts_nest "http://web-platform.test:8000" "w-1" join
           harness a_test eq_refl).
Defined.

Lemma do_test_result_shape_witness :
  do_test nat nat converter (failing value_error) TheClass worker_completes
    harness a_test
  = Some (Py.Ok (mk_result "ERROR" (DExc value_error), []))
  /\ ((exists v, func nat (failing value_error) = Returns v
                 /\ converter a_test v
                    = Py.Ok (mk_result "ERROR" (DExc value_error), []))
      \/ @nil nat = []
         /\ ("ERROR" = "EXTERNAL-TIMEOUT" /\ DExc value_error = DNone
             \/ "ERROR" = "CRASH" /\ DExc value_error = DNone
             \/ "ERROR" = "ERROR"
                /\ exists e, func nat (failing value_error) = Raises e
                             /\ DExc value_error = DExc e)).
Proof.
  split; [reflexivity|].
  apply (do_test_result_shape nat nat converter (failing value_error)
           TheClass worker_completes harness a_test
           (mk_result "ERROR" (DExc value_error)) []).
  reflexivity.
Defined.

Lemma do_test_hanging_script_witness :
  func nat (do_test_world nat "http://web-platform.test:8000" "w-1" join
              render_timeout (Py.Ok tt) hanging_script traceback harness
              a_test)
  = Hangs
  /\ do_test nat nat converter
       (do_test_world nat "http://web-platform.test:8000" "w-1" join
          render_timeout (Py.Ok tt) hanging_script traceback harness a_test)
       TheClass ([Sup; Sup; Wrk] ++ bound_elapses) harness a_test
     = Some (Py.Ok (mk_result "EXTERNAL-TIMEOUT" DNone, []))
  /\ do_test nat nat converter
       (do_test_world nat "http://web-platform.test:8000" "w-1" join
          render_timeout (Py.Ok tt) hanging_script traceback harness_debug
          a_test)
       TheClass [Sup; Sup; Wrk; Elapse; Sup] harness_debug a_test
     = None.
Proof.
  split; [reflexivity|]. split.
  - apply (do_test_hanging_script nat nat converter
             "http://web-platform.test:8000" "w-1" join render_timeout
             hanging_script traceback harness a_test TheClass [Sup; Sup; Wrk]
             eq_refl).
  - apply (do_test_hanging_script nat nat converter
             "http://web-platform.test:8000" "w-1" join render_timeout
             hanging_script traceback harness_debug a_test TheClass
             [Sup; Sup; Wrk; Elapse; Sup] eq_refl).
Defined.

End DoTestScenarios.

(* ================================================================== *)
(** * MarionetteRefTestExecutor: taking a screenshot *)
(* ================================================================== *)

Section ScreenshotProperties.

Import MarionetteRefTestExecutor.

Variable http_server_url : string.
Variable urljoin : string -> string -> string.
Variable errors_MarionetteException : Py.res Py.exc_class.
Variable load_failure : string -> Py.exn.

Lemma prefix_split (p s : string) :
  String.prefix p s = true -> exists rest, s = (p ++ rest)%string.
Proof.
  revert s. induction p as [|c p IH]; intros s.
  - intros _. exists s. reflexivity.
  - destruct s as [|c' s]; simpl; [discriminate|].
    destruct (Ascii.ascii_dec c c') as [->|]; [|discriminate].
    intros H. destruct (IH s H) as [rest ->]. exists rest. reflexivity.
Qed.

Lemma strip_prefixed (s : string) :
  strip_data_prefix (data_prefix ++ s) = Py.Ok s.
Proof. destruct s; reflexivity. Qed.

Lemma strip_cases (s : string) :
  exists png,
    strip_data_prefix s = Py.Ok png
    /\ (s = (data_prefix ++ png)%string
        \/ s = png /\ String.prefix data_prefix s = false).
Proof.
  destruct (String.prefix data_prefix s) eqn:E.
  - destruct (prefix_split _ _ E) as [rest ->].
    exists rest. split; [apply strip_prefixed | left; reflexivity].
  - exists s. unfold strip_data_prefix. rewrite E.
    split; [reflexivity | right; split; reflexivity].
Qed.

(** X13. Stripping the data-url header. A screenshot that starts with
    [data:image/png;base64,] loses exactly that header, whatever follows
    it (further commas included); any other text is returned as it is;
    the indexing [split(",", 1)[1]] never fails. *)
Theorem strip_data_prefix_total (s : string) :
  strip_data_prefix (data_prefix ++ s) = Py.Ok s
  /\ (String.prefix data_prefix s = false -> strip_data_prefix s = Py.Ok s)
  /\ exists png,
      strip_data_prefix s = Py.Ok png
      /\ (s = (data_prefix ++ png)%string \/ s = png).
Proof.
  split; [apply strip_prefixed|]. split.
  - intros E. unfold strip_data_prefix. rewrite E. reflexivity.
  - destruct (strip_cases s) as (png & E & [H | [H _]]);
      exists png; (split; [exact E|]); [left | right]; exact H.
Qed.

(** X14. The remote calls of [_screenshot]. It navigates first, to the
    test url joined to the server url; it runs the wait script only when
    the navigation returned, and takes the screenshot only when the wait
    script returned as well. What it returns is the captured text, with
    the data-url header removed if it had one. A navigation failure that
    is a [MarionetteException] is replaced by the executor's own
    load-failure exception; when the name [marionette.errors] cannot be
    looked up on the client, the lookup's failure is what comes out. *)
Theorem _screenshot_calls (r : shot_remote) (test_url : string) :
  let full_url := urljoin http_server_url test_url in
  let calls := fst (_screenshot http_server_url urljoin
                      errors_MarionetteException load_failure r test_url) in
  let outcome := snd (_screenshot http_server_url urljoin
                        errors_MarionetteException load_failure r test_url) in
  hd_error calls = Some (NavigateTo full_url)
  /\ (In WaitScript calls <-> exists u, navigate r = MarionetteRun.Returns u)
  /\ (In Screenshot calls
      <-> (exists u, navigate r = MarionetteRun.Returns u)
          /\ exists u, execute_wait_script r = MarionetteRun.Returns u)
  /\ (forall png, outcome = MarionetteRun.Returns png ->
        In Screenshot calls
        /\ exists shot,
            take_screenshot r = MarionetteRun.Returns shot
            /\ (shot = (data_prefix ++ png)%string
                \/ shot = png /\ String.prefix data_prefix shot = false))
  /\ (forall e c,
        navigate r = MarionetteRun.Raises e ->
        errors_MarionetteException = Py.Ok c ->
        outcome = MarionetteRun.Raises
                    (if Py.isinstance e c then load_failure full_url else e))
  /\ (forall e e',
        navigate r = MarionetteRun.Raises e ->
        errors_MarionetteException = Py.Raise e' ->
        outcome = MarionetteRun.Raises e').
Proof.
  intros full_url calls outcome. unfold calls, outcome, _screenshot.
  fold full_url.
  destruct (navigate r) as [u | e |] eqn:Hn.
  - destruct (execute_wait_script r) as [u' | e' |] eqn:Hw.
    + simpl. split; [reflexivity|]. split; [split; eauto|].
      split; [split; eauto 6|]. split; [|split; intros; discriminate].
      intros png H. split; [auto|].
      destruct (take_screenshot r) as [shot | e'' |]; try discriminate.
      destruct (strip_cases shot) as (png' & E & Hs). rewrite E in H.
      assert (png' = png) by congruence. subst png'.
      exists shot. split; [reflexivity | exact Hs].
    + simpl. split; [reflexivity|]. split; [split; eauto|].
      split; [|split; [|split]]; try (intros; discriminate).
      split.
      * intros [H | [H | []]]; discriminate.
      * intros [_ [u' H]]. discriminate.
    + simpl. split; [reflexivity|]. split; [split; eauto|].
      split; [|split; [|split]]; try (intros; discriminate).
      split.
      * intros [H | [H | []]]; discriminate.
      * intros [_ [u' H]]. discriminate.
  - simpl. split; [reflexivity|]. split; [|split; [|split; [|split]]].
    + split; [intros [H | []]; discriminate | intros [u H]; discriminate].
    + split; [intros [H | []]; discriminate | intros [[u H] _]; discriminate].
    + intros png H. destruct errors_MarionetteException as [c | e'].
      * destruct (Py.isinstance e c); discriminate.
      * discriminate.
    + intros e0 c H Hc. assert (e0 = e) by congruence. subst e0.
      rewrite Hc. destruct (Py.isinstance e c); reflexivity.
    + intros e0 e' H He. rewrite He. reflexivity.
  - simpl. split; [reflexivity|]. split; [|split; [|split; [|split]]];
      try (intros; discriminate).
    + split; [intros [H | []]; discriminate | intros [u H]; discriminate].
    + split; [intros [H | []]; discriminate | intros [[u H] _]; discriminate].
Qed.

(** X15. [screenshot] gives its caller a success only with what the
    browser captured: when [run], called on [_screenshot], returns
    [(True, png)], the three remote calls returned, and [png] is the
    captured text without its data-url header. Under the debugger the
    call has no deadline, otherwise the deadline it was given (the timeout
    multiplier plays no part). *)
Theorem screenshot_result_provenance (set_timeout : Py.res unit)
  (r : shot_remote) (fmt : Py.exn -> string) (test_url : string)
  (debug_args : option (list string)) (timeout : Z)
  (g : MarionetteRun.binding) (sch : list MarionetteRun.action)
  (png : string) :
  MarionetteRun.run string
    (screenshot_world http_server_url urljoin errors_MarionetteException
       load_failure set_timeout r fmt test_url)
    (screenshot_timeout debug_args timeout) g sch
  = Some (Py.Ok (MarionetteRun.RetResult
                   (Some (MarionetteRun.Completed png)))) ->
  (screenshot_timeout debug_args timeout = None <-> debug_args <> None)
  /\ (debug_args = None ->
      screenshot_timeout debug_args timeout = Some timeout)
  /\ (exists u, navigate r = MarionetteRun.Returns u)
  /\ (exists u, execute_wait_script r = MarionetteRun.Returns u)
  /\ exists shot,
      take_screenshot r = MarionetteRun.Returns shot
      /\ (shot = (data_prefix ++ png)%string
          \/ shot = png /\ String.prefix data_prefix shot = false).
Proof.
  unfold MarionetteRun.run. intros H. split.
  - unfold screenshot_timeout. destruct debug_args; split; intros E;
      try reflexivity; try discriminate; congruence.
  - split; [intros ->; reflexivity|].
    pose proof (returned_provenance string
                  (screenshot_world http_server_url urljoin
                     errors_MarionetteException load_failure set_timeout r
                     fmt test_url)
                  g (screenshot_timeout debug_args timeout) sch
                  (MarionetteRun.RetResult
                     (Some (MarionetteRun.Completed png)))) as P.
    match type of H with
    | match ?x with _ => _ end = _ => destruct x eqn:Es; try discriminate
    end.
    assert (E : r0 = MarionetteRun.RetResult
                       (Some (MarionetteRun.Completed png)))
      by congruence.
    subst r0. specialize (P eq_refl). simpl in P.
    destruct (_screenshot_calls r test_url) as (_ & _ & Hs & Hp & _).
    destruct (Hp png P) as (Hin & shot & Ht & Hshot).
    apply Hs in Hin. destruct Hin as [Hnav Hwait].
    split; [exact Hnav|]. split; [exact Hwait|].
    exists shot. split; assumption.
Qed.

End ScreenshotProperties.

Section ScreenshotScenarios.

Import MarionetteRun MarionetteRefTestExecutor Scenarios.

Lemma screenshot_result_provenance_witness :
  run string
    (screenshot_world "http://web-platform.test:8000" join
       (Py.Ok Py.MarionetteException) load_failed (Py.Ok tt) captured
       traceback "/css/a.html")
    (screenshot_timeout None 10) TheClass worker_completes
  = Some (Py.Ok (RetResult (Some (Completed "iVBORw0KGgo="))))
  /\ exists shot,
      take_screenshot captured = Returns shot
      /\ (shot = (data_prefix ++ "iVBORw0KGgo=")%string
          \/ shot = "iVBORw0KGgo="
             /\ String.prefix data_prefix shot = false).
Proof.
  split; [reflexivity|].
  apply (screenshot_result_provenance "http://web-platform.test:8000" join
           (Py.Ok Py.MarionetteException) load_failed (Py.Ok tt) captured
           traceback "/css/a.html" None 10 TheClass worker_completes
           "iVBORw0KGgo=" eq_refl).
Defined.

End ScreenshotScenarios.

(* ================================================================== *)
(** * MarionetteWebDriverExecutor: the local server *)
(* ================================================================== *)

Section WebDriverProperties.

Import MarionetteWebDriverExecutor.

(** X16. The local server through the executor's life. [teardown] logs,
    then stops the server exactly when one was created, then runs the base
    class's teardown, unless stopping the server raised: then the base
    teardown is skipped and the exception comes out. [setup] creates the
    server before it tries to start it, so a [teardown] after a [setup]
    stops it whether or not it could be started. [is_alive] asks the
    server; before [setup] there is none and it raises an
    [AttributeError]. *)
Theorem webdriver_driver_lifecycle (driver : option unit)
  (stop base : Py.res unit) (probe : Py.res bool) :
  let steps := fst (teardown driver stop base) in
  let outcome := snd (teardown driver stop base) in
  hd_error steps = Some LogTeardown
  /\ (In DriverStop steps <-> driver <> None)
  /\ (In BaseTeardown steps
      <-> driver = None \/ Py.succeeds stop = true)
  /\ (In BaseTeardown steps -> outcome = base)
  /\ (forall e, driver <> None -> stop = Py.Raise e ->
      outcome = Py.Raise e)
  /\ In DriverStop (fst (teardown driver_after_setup stop base))
  /\ ~ In DriverStop (fst (teardown driver_after_init stop base))
  /\ is_alive driver_after_setup probe = probe
  /\ exists e, is_alive driver_after_init probe = Py.Raise e
               /\ Py.cls e = Py.AttributeError.
Proof.
  intros steps outcome.
  assert (Htail :
            In DriverStop (fst (teardown driver_after_setup stop base))
            /\ ~ In DriverStop (fst (teardown driver_after_init stop base))
            /\ is_alive driver_after_setup probe = probe
            /\ exists e, is_alive driver_after_init probe = Py.Raise e
                         /\ Py.cls e = Py.AttributeError).
  { unfold teardown, driver_after_setup, driver_after_init, is_alive.
    split; [destruct stop; simpl; tauto|].
    split; [simpl; intros [H | [H | []]]; discriminate|].
    split; [reflexivity|]. eexists. split; reflexivity. }
  unfold steps, outcome, teardown.
  destruct driver as [[]|]; destruct stop as [[]|e]; simpl;
    (split; [reflexivity|]);
    (split; [split; intros;
             repeat match goal with
                    | H : _ \/ _ |- _ => destruct H
                    | H : False |- _ => destruct H
                    end; try discriminate; try congruence; auto|]);
    (split; [split; intros;
             repeat match goal with
                    | H : _ \/ _ |- _ => destruct H
                    | H : False |- _ => destruct H
                    end; try discriminate; try congruence; auto|]);
    (split; [intros;
             repeat match goal with
                    | H : _ \/ _ |- _ => destruct H
                    | H : False |- _ => destruct H
                    end; try discriminate; try congruence; auto|]);
    (split; [intros; try discriminate; try congruence; auto|]);
    exact Htail.
Qed.

End WebDriverProperties.

(* ================================================================== *)
(** * MarionetteProtocol: further properties *)
(* ================================================================== *)

Section ProtocolProperties.

Import MarionetteProtocol.

Lemma setup_protocol (base : list event) (fuel : nat)
  (debug_args : option (list string)) (r : remote) (p : protocol) :
  fst (fst (setup base fuel debug_args r p)) = mk_protocol (Some Client).
Proof.
  unfold setup.
  destruct (wait_loop fuel (wait_for_port r) debug_args 0) as [evp [success|]];
    [|reflexivity].
  destruct success; [|reflexivity].
  destruct (start_session r); [|reflexivity].
  destruct (after_connect r (mk_protocol (Some Client))) as [eva [u|e]];
    reflexivity.
Qed.

(** X17. The protocol object through its life. Whatever [setup] met (and
    whatever object it started from), the object it leaves holds a client:
    a [teardown] on it returns, whether or not the remote session can be
    deleted, and leaves an object on which [is_alive] is false; between
    the two, [is_alive] is true exactly when the probe over the connection
    succeeds. Before [setup], [is_alive] is false. [setup] does not look
    at the object it is given, so it works again after a [teardown]. *)
Theorem protocol_lifecycle (base : list event) (fuel : nat)
  (debug_args : option (list string)) (r : remote) (p : protocol)
  (delete_session : Py.res unit) (current_window_handle : Py.res string) :
  let p' := fst (fst (setup base fuel debug_args r p)) in
  is_alive current_window_handle new = false
  /\ is_alive current_window_handle p' = Py.succeeds current_window_handle
  /\ (exists p'',
        teardown delete_session p' = Py.Ok p''
        /\ is_alive current_window_handle p'' = false
        /\ setup base fuel debug_args r p''
           = setup base fuel debug_args r p).
Proof.
  intros p'. unfold p'. rewrite setup_protocol.
  split; [reflexivity|]. split.
  - destruct current_window_handle; reflexivity.
  - exists (mk_protocol None). split; [|split].
    + destruct delete_session; reflexivity.
    + reflexivity.
    + reflexivity.
Qed.

Lemma wait_loop_polls (port : nat -> bool) (args : list string) (k : nat) :
  forall n fuel,
    (forall i, (i < k)%nat -> port (n + i)%nat = false) ->
    port (n + k)%nat = true ->
    (k < fuel)%nat ->
    wait_loop fuel port (Some args) n
    = (repeat (WaitForPort 60) (S k), Some true).
Proof.
  induction k as [|k IH]; intros n fuel Hbefore Hopen Hfuel.
  - destruct fuel as [|fuel]; [lia|]. simpl.
    rewrite Nat.add_0_r in Hopen. rewrite Hopen. reflexivity.
  - destruct fuel as [|fuel]; [lia|].
    assert (H0 : port n = false).
    { rewrite <- (Nat.add_0_r n). apply Hbefore. lia. }
    change (wait_loop (S fuel) port (Some args) n)
      with (if port n || false
            then ([WaitForPort 60], Some (port n))
            else let '(evs, r) := wait_loop fuel port (Some args) (S n) in
                 (WaitForPort 60 :: evs, r)).
    rewrite H0. simpl orb. cbv iota.
    rewrite (IH (S n) fuel).
    + reflexivity.
    + intros i Hi. replace (S n + i)%nat with (n + S i)%nat by lia.
      apply Hbefore. lia.
    + replace (S n + k)%nat with (n + S k)%nat by lia. exact Hopen.
    + lia.
Qed.

(** X18. Under the debugger [setup] polls the port until it is open: when
    the port opens at the poll number [k], [setup] has polled exactly
    [k + 1] times, and the next thing it does is start the session. *)
Theorem setup_polls_until_port_opens (base : list event) (fuel : nat)
  (args : list string) (r : remote) (p : protocol) (k : nat) :
  (forall i, (i < k)%nat -> wait_for_port r i = false) ->
  wait_for_port r k = true ->
  (k < fuel)%nat ->
  exists rest,
    setup base fuel (Some args) r p
    = (mk_protocol (Some Client),
       (base ++ [Log Debug "Connecting to marionette on port %i";
                 Log Debug "Waiting for Marionette connection"])
       ++ repeat (WaitForPort 60) (S k)
       ++ [Log Debug "Starting Marionette session"; StartSession]
       ++ rest,
       true).
Proof.
  intros Hbefore Hopen Hfuel. unfold setup.
  rewrite (wait_loop_polls (wait_for_port r) args k 0 fuel Hbefore Hopen
             Hfuel).
  destruct (start_session r) as [u|e].
  - destruct (after_connect r (mk_protocol (Some Client))) as [eva [u'|e']];
      simpl; eexists; reflexivity.
  - simpl. eexists. reflexivity.
Qed.

Lemma wait_loop_events (fuel : nat) (port : nat -> bool)
  (debug_args : option (list string)) (n : nat) (ev : event) :
  In ev (fst (wait_loop fuel port debug_args n)) -> ev = WaitForPort 60.
Proof.
  revert n. induction fuel as [|fuel IH]; intros n; simpl.
  - intros [].
  - destruct (port n || _); simpl.
    + intros [H | []]. symmetry. exact H.
    + specialize (IH (S n)).
      destruct (wait_loop fuel port debug_args (S n)) as [evs r]. simpl in *.
      intros [H | H]; [symmetry; exact H | exact (IH H)].
Qed.

Lemma ends_cons (ev : event) (l : list event) :
  (exists pre m, l = pre ++ [SendMessage m]) ->
  exists pre m, ev :: l = pre ++ [SendMessage m].
Proof. intros (pre & m & ->). exists (ev :: pre), m. reflexivity. Qed.

Lemma ends_app (l1 l2 : list event) :
  (exists pre m, l2 = pre ++ [SendMessage m]) ->
  exists pre m, l1 ++ l2 = pre ++ [SendMessage m].
Proof.
  intros (pre & m & ->). exists (l1 ++ pre), m. apply app_assoc.
Qed.

Lemma ends_one (m : string) :
  exists pre m', [SendMessage m] = pre ++ [SendMessage m'].
Proof. exists [], m. reflexivity. Qed.

(** X19. What gates the steps of [setup]. When [setup] returns, the
    session handshake was attempted exactly when the port was found open;
    the runner page was navigated to, and the title script run, exactly
    when the handshake succeeded as well (the title script is run even
    when the navigation failed); and the message to the runner is the
    last thing [setup] does. While [setup] is still polling it has
    attempted no handshake and sent nothing. *)
Theorem setup_steps_gate (fuel : nat) (debug_args : option (list string))
  (r : remote) (p : protocol) :
  let evs := snd (fst (setup [] fuel debug_args r p)) in
  let opened := snd (wait_loop fuel (wait_for_port r) debug_args 0) in
  (snd (setup [] fuel debug_args r p) = true ->
   (In StartSession evs <-> opened = Some true)
   /\ (In Navigate evs
       <-> opened = Some true /\ Py.succeeds (start_session r) = true)
   /\ (In ExecuteScript evs <-> In Navigate evs)
   /\ exists pre m, evs = pre ++ [SendMessage m])
  /\ (snd (setup [] fuel debug_args r p) = false ->
      ~ In StartSession evs /\ sent evs = []).
Proof.
  intros evs opened. unfold evs, opened, setup, after_connect.
  pose proof (wait_loop_events fuel (wait_for_port r) debug_args 0) as Hev.
  pose proof (wait_loop_silent fuel (wait_for_port r) debug_args 0) as [Hs _].
  destruct (wait_loop fuel (wait_for_port r) debug_args 0) as [evp res].
  simpl in Hev, Hs.
  assert (Hno : forall ev, ev <> WaitForPort 60 -> ~ In ev evp).
  { intros ev Hne Hin. exact (Hne (Hev ev Hin)). }
  assert (N1 : ~ In StartSession evp) by (apply Hno; discriminate).
  assert (N2 : ~ In Navigate evp) by (apply Hno; discriminate).
  assert (N3 : ~ In ExecuteScript evp) by (apply Hno; discriminate).
  clear Hno Hev.
  destruct res as [success|]; simpl.
  - destruct success; simpl;
      [destruct (start_session r) as [u|e]; simpl;
       [destruct (navigate r) as [u'|e']; destruct (execute_script r)
          as [u''|e'']; simpl|]|];
      (split; [intros _ | discriminate]);
      (split; [rewrite ?in_app_iff; simpl;
               intuition (try discriminate; try congruence)|]);
      (split; [rewrite ?in_app_iff; simpl;
               intuition (try discriminate; try congruence)|]);
      (split; [rewrite ?in_app_iff; simpl;
               intuition (try discriminate; try congruence)|]);
      repeat first [apply ends_one | apply ends_cons | apply ends_app].
  - split; [discriminate | intros _].
    split.
    + intros [H | [H | H]]; try discriminate. exact (N1 H).
    + exact Hs.
Qed.

End ProtocolProperties.

Section ProtocolScenarios.

Import MarionetteProtocol Scenarios.

Lemma setup_polls_until_port_opens_witness :
  (forall i, (i < 2)%nat -> wait_for_port opens_at_third_poll i = false)
  /\ wait_for_port opens_at_third_poll 2 = true
  /\ (2 < 5)%nat
  /\ exists rest,
      setup [] 5 (Some ["gdb"]) opens_at_third_poll new
      = (mk_protocol (Some Client),
         ([] ++ [Log Debug "Connecting to marionette on port %i";
                 Log Debug "Waiting for Marionette connection"])
         ++ repeat (WaitForPort 60) 3
         ++ [Log Debug "Starting Marionette session"; StartSession]
         ++ rest,
         true).
Proof.
  assert (H : forall i, (i < 2)%nat ->
                wait_for_port opens_at_third_poll i = false).
  { intros i Hi. destruct i as [|[|i]]; [reflexivity | reflexivity | lia]. }
  split; [exact H|]. split; [reflexivity|]. split; [lia|].
  apply (setup_polls_until_port_opens [] 5 ["gdb"] opens_at_third_poll new 2
           H eq_refl).
  lia.
Defined.

End ProtocolScenarios.

(* ================================================================== *)
(** * MarionetteRefTestExecutor: further properties of the window *)
(* ================================================================== *)

Section RefTestProperties.

Import Browser MarionetteRefTestExecutor.

Variable ws0 : list nat.

Lemma open_window_exact (cad : bool) (b : browser) (h : nat) :
  current b = Some h ->
  In h (window_handles b) ->
  open_window (mk_executor cad false, b)
  = ((mk_executor cad true,
      mk_browser (window_handles b ++ [fresh b]) (Some (fresh b))
        (S (fresh b))),
     Py.Ok tt).
Proof.
  intros Hcur Hin. unfold open_window. simpl.
  unfold execute_reftest_script. rewrite Hcur.
  rewrite (proj2 (is_open_In h b) Hin).
  unfold last_window_handle. simpl. rewrite rev_unit.
  unfold switch_to_window.
  match goal with
  | |- context [is_open ?k ?b'] =>
      rewrite (proj2 (is_open_In k b'))
        by (simpl; apply in_or_app; right; left; reflexivity)
  end.
  reflexivity.
Qed.

Lemma close_previous_exact (b : browser) (w : nat) :
  ws0 <> [] ->
  window_handles b = ws0 ++ [w] ->
  current b = Some w ->
  ~ In w ws0 ->
  exists h,
    In h ws0
    /\ close_previous (mk_executor true true, b)
       = ((mk_executor true false, mk_browser ws0 (Some h) (fresh b)),
          Py.Ok tt).
Proof.
  intros Hne Hws Hcur Hnew. unfold close_previous. simpl.
  unfold close. rewrite Hcur.
  assert (Hopen : is_open w b = true).
  { apply is_open_In. rewrite Hws. apply in_or_app. right. left. reflexivity. }
  rewrite Hopen, Hws, (filter_drops_last ws0 w Hnew).
  destruct (last_of_nonempty (mk_browser ws0 None (fresh b)) Hne)
    as (h & Hlast & Hin).
  rewrite Hlast. unfold switch_to_window.
  rewrite (proj2 (is_open_In h (mk_browser ws0 None (fresh b))) Hin).
  simpl. exists h. split; [exact Hin | reflexivity].
Qed.

(** X20. Which window a test runs in. With [close_after_done] unset, a
    call of [do_test] made while a window is open changes neither the
    executor nor the browser: the window is reused. Otherwise (the flag is
    set, or no window is open yet) the call leaves the test in a window
    that did not exist before the call, which is the one window the
    executor has open and the current context. The flag itself never
    changes. *)
Theorem do_test_window_policy (R : Type) (o : Py.res R) (s : state) :
  ws0 <> [] ->
  window_inv ws0 s ->
  let s' := fst (do_test R o s) in
  close_after_done (fst s') = close_after_done (fst s)
  /\ (close_after_done (fst s) = false -> has_window (fst s) = true ->
      s' = s)
  /\ (close_after_done (fst s) = true \/ has_window (fst s) = false ->
      ~ In (fresh (snd s)) (window_handles (snd s))
      /\ tracked ws0 (snd s') = [fresh (snd s)]
      /\ current (snd s') = Some (fresh (snd s))
      /\ has_window (fst s') = true).
Proof.
  intros Hne [Hfresh Hw] s'.
  assert (Hnew : ~ In (fresh (snd s)) (window_handles (snd s))).
  { intros Hin. rewrite Forall_forall in Hfresh.
    specialize (Hfresh _ Hin). lia. }
  destruct s as [[cad hw] b]. simpl in *.
  destruct hw.
  - destruct Hw as (w & Hws & Hcur & Hw).
    destruct cad.
    + destruct (close_previous_exact b w Hne Hws Hcur Hw)
        as (h & Hin & Hclose).
      unfold s', do_test. rewrite Hclose.
      rewrite (open_window_exact true (mk_browser ws0 (Some h) (fresh b)) h
                 eq_refl Hin).
      simpl. split; [reflexivity|]. split; [discriminate|].
      intros _. split; [exact Hnew|]. split; [|split; reflexivity].
      apply tracked_one; [reflexivity|].
      intros Hbad. apply Hnew. rewrite Hws. apply in_or_app. left.
      exact Hbad.
    + unfold s', do_test. simpl. split; [reflexivity|].
      split; [reflexivity|]. intros [H | H]; discriminate.
  - destruct Hw as (Hws & h & Hcur & Hin).
    unfold s', do_test.
    assert (Hclose : close_previous (mk_executor cad false, b)
                     = ((mk_executor cad false, b), Py.Ok tt)).
    { unfold close_previous. simpl. rewrite andb_false_r. reflexivity. }
    rewrite Hclose.
    rewrite (open_window_exact cad b h Hcur)
      by (rewrite Hws; exact Hin).
    simpl. split; [reflexivity|]. split; [discriminate|].
    intros _. split; [exact Hnew|]. split; [|split; reflexivity].
    apply tracked_one; [simpl; rewrite Hws; reflexivity|].
    rewrite <- Hws. exact Hnew.
Qed.

(** X21. A failed window operation is not recovered from. When closing
    the previous window raises, [do_test] raises before it resets
    [has_window] and before it runs the test: the executor and the
    browser are as they were, so every later call fails in the same way,
    and no test of the sequence is run. *)
Theorem do_test_failure_is_sticky (R : Type) (outcomes : list (Py.res R))
  (x : executor) (b : browser) (e : Py.exn) :
  close_after_done x = true ->
  has_window x = true ->
  close b = Py.Raise e ->
  do_tests R outcomes (x, b)
  = ((x, b), map (fun _ => Py.Raise e) outcomes).
Proof.
  intros Hcad Hhw Hclose.
  assert (Hone : forall o, do_test R o (x, b) = ((x, b), Py.Raise e)).
  { intros o. unfold do_test, close_previous.
    rewrite Hcad, Hhw, Hclose. reflexivity. }
  induction outcomes as [|o rest IH]; simpl.
  - reflexivity.
  - rewrite Hone, IH. reflexivity.
Qed.

End RefTestProperties.

Section RefTestScenarios.

Import Browser MarionetteRefTestExecutor Scenarios.

Lemma do_test_window_policy_witness :
  [0%nat] <> []
  /\ window_inv [0%nat] (mk_executor true false, one_window)
  /\ tracked [0%nat]
       (snd (fst (do_test nat (Py.Ok 1%nat)
                    (mk_executor true false, one_window))))
     = [1%nat].
Proof.
  assert (Hne : [0%nat] <> []) by discriminate.
  assert (Hinv : window_inv [0%nat] (mk_executor true false, one_window)).
  { unfold window_inv. simpl. split.
    - repeat constructor.
    - split; [reflexivity|]. exists 0%nat. split; [reflexivity|].
      left. reflexivity. }
  split; [exact Hne|]. split; [exact Hinv|].
  apply (do_test_window_policy [0%nat] nat (Py.Ok 1%nat)
           (mk_executor true false, one_window) Hne Hinv).
  left. reflexivity.
Defined.

Lemma do_test_failure_is_sticky_witness :
  close_after_done (mk_executor true true) = true
  /\ has_window (mk_executor true true) = true
  /\ close no_context = Py.Raise no_such_window
  /\ do_tests nat [Py.Ok 1%nat; Py.Ok 2%nat]
       (mk_executor true true, no_context)
     = ((mk_executor true true, no_context),
        [Py.Raise no_such_window; Py.Raise no_such_window]).
Proof.
  split; [reflexivity|]. split; [reflexivity|]. split; [reflexivity|].
  apply (do_test_failure_is_sticky nat [Py.Ok 1%nat; Py.Ok 2%nat]
           (mk_executor true true) no_context no_such_window
           eq_refl eq_refl eq_refl).
Defined.

End RefTestScenarios.
